(** * secure-vote-face-chain: the identity-gated vote-casting workflow

    A shallow embedding of the voting hook ([useVoting]), of the contract
    facade ([VotingContract]), of the face-verification hook
    ([useFaceVerification]) and of the one-time-code component
    ([OTPVerification]), followed by the properties of the workflow.

    Conventions of the embedding.
    - A React handler is a closure over the state of the render it was
      created in: it reads that snapshot and queues setter calls.  A handler
      is therefore a function from the snapshot to the list of effects it
      issues, in program order; [run] applies the queued setters.
    - JavaScript numbers used as identifiers, steps and counters are [Z];
      the results of [Math.random()] are binary64 floats ([PrimFloat]).
    - A value that may be [null] is an [option]; an awaited promise is the
      value it settles with ([Settled]).
    - Strings are [string]; [.length] is [String.length], which agrees with
      JavaScript's count of UTF-16 units on the ASCII text the one-time
      code is made of.
    - Handlers run one at a time: no other handler runs between the awaits
      of an [async] one. *)

From Stdlib Require Import ZArith String List Bool Lia.
From Stdlib Require Import Floats.PrimFloat Floats.FloatOps Floats.SpecFloat.
From Stdlib Require Import DecimalString.
Import ListNotations.

Set Warnings "-inexact-float".

Local Open Scope Z_scope.
Local Open Scope string_scope.
Local Open Scope list_scope.

(* ================================================================= *)
(** ** JavaScript values *)

Module Js.

(** Modelled from the spec: the error kinds of sections 4.3 and 7.  The services
    that raise them (voting/ElectionService, voting/VotingService) are not
    among the sources; the kind is the spec's classification of a thrown
    [Error] and no handler of the sources inspects it. *)
Inductive ErrorKind : Type :=
| NotFound
| ElectionNotActive
| InvalidWorkflowState
| AlreadyVoted
| VerificationFailed
| NoReferenceEnrolled
| InvalidCandidate
| CatalogUnavailable
| LedgerUnavailable.

(** What a [catch (error)] clause receives: an [Error] instance, which has
    a [message], or any other thrown value. *)
Inductive Thrown : Type :=
| ThrownError (kind : ErrorKind) (message : string)
| ThrownOther.

(** The settlement of an awaited promise. *)
Inductive Settled (A : Type) : Type :=
| Resolved (a : A)
| Rejected (e : Thrown).
Arguments Resolved {A} a.
Arguments Rejected {A} e.

(** A promise that settles after [delay] milliseconds. *)
Record Promise (A : Type) : Type := mkPromise
  { delay : Z; settles : Settled A }.
Arguments mkPromise {A} delay settles.
Arguments delay {A} p.
Arguments settles {A} p.

(** Truthiness of a [string | null]: [null] and the empty string are
    falsy. *)
Definition truthy (s : option string) : bool :=
  match s with
  | None => false
  | Some x => negb (String.eqb x "")
  end.

(** Truthiness of an object reference or [null]. *)
Definition present {A : Type} (o : option A) : bool :=
  match o with
  | None => false
  | Some _ => true
  end.

(** [error instanceof Error ? error.message : fallback]. *)
Definition message_or (e : Thrown) (fallback : string) : string :=
  match e with
  | ThrownError _ m => m
  | ThrownOther => fallback
  end.

(** The variant of a toast. *)
Inductive Variant : Type := Default | Destructive.

Record ToastMsg : Type := mkToast
  { title : string; description : string; variant : Variant }.

End Js.

Import Js.

(* ================================================================= *)
(** ** Data model (VotingContract.ts interfaces) *)

Record Candidate : Type := mkCandidate
  { cand_id : Z; cand_name : string; party : string; voteCount : Z }.

Record Election : Type := mkElection
  { elec_id : Z;
    elec_title : string;
    elec_description : string;
    startDate : Z;
    endDate : Z;
    candidates : list Candidate;
    isActive : bool }.

Record VoteTransaction : Type := mkVoteTransaction
  { tx_transactionHash : string;
    blockNumber : Z;
    timestamp : Z;
    voter : string;
    electionId : Z;
    candidateId : Z }.

(** The part of the authenticated user the hooks read ([user.id]). *)
Record User : Type := mkUser { user_id : string }.

(* ================================================================= *)
(** ** VotingContract: the singleton facade over the two services *)

Module VotingContract.

(** Object identity is an address; [new] takes the next fresh one. *)
Definition Ref : Type := nat.

(** A [VotingContract] object: its own identity and its two private
    fields. *)
Record Obj : Type := mkObj
  { self : Ref; electionService : Ref; votingService : Ref }.

(** The behaviour of the two service classes, which the facade delegates
    to.  [World] is whatever they read and write (the backing store). *)
Class Services : Type := mkServices
  { World : Type;
    ElectionService_getElections :
      Ref -> World -> World * Settled (list Election);
    ElectionService_hasUserVoted :
      Ref -> string -> Z -> World -> World * Settled bool;
    VotingService_castVote :
      Ref -> string -> Z -> Z -> World -> World * Settled VoteTransaction }.

(** The process: the private static field [instance], the allocator and
    the backing store of the services. *)
Record Process {Svc : Services} : Type := mkProcess
  { instance : option Obj; allocated : nat; world : World }.
Arguments mkProcess {Svc} instance allocated world.

Section Facade.
Context {Svc : Services}.

(** [new VotingContract()]: the object, then [new ElectionService()],
    then [new VotingService()]. *)
Definition construct (p : Process) : Obj * Process :=
  let o := mkObj (allocated p) (allocated p + 1)%nat (allocated p + 2)%nat in
  (o, mkProcess (instance p) (allocated p + 3)%nat (world p)).

Definition getInstance (p : Process) : Obj * Process :=
  match instance p with
  | None =>
      let '(o, p1) := construct p in
      (o, mkProcess (Some o) (allocated p1) (world p1))
  | Some o => (o, p)
  end.

Definition with_world (p : Process) (w : World) : Process :=
  mkProcess (instance p) (allocated p) w.

Definition getElections (this : Obj) (p : Process)
  : Process * Settled (list Election) :=
  let '(w, r) := ElectionService_getElections (electionService this) (world p) in
  (with_world p w, r).

Definition castVote (this : Obj) (userId : string) (eId cId : Z) (p : Process)
  : Process * Settled VoteTransaction :=
  let '(w, r) := VotingService_castVote (votingService this) userId eId cId (world p) in
  (with_world p w, r).

Definition hasUserVoted (this : Obj) (userId : string) (eId : Z) (p : Process)
  : Process * Settled bool :=
  let '(w, r) := ElectionService_hasUserVoted (electionService this) userId eId (world p) in
  (with_world p w, r).

(** [n] successive calls of [getInstance], with the objects returned. *)
Fixpoint getInstances (n : nat) (p : Process) : list Obj * Process :=
  match n with
  | O => ([], p)
  | S k =>
      let '(o, p1) := getInstance p in
      let '(os, p2) := getInstances k p1 in
      (o :: os, p2)
  end.

End Facade.

End VotingContract.

(* ================================================================= *)
(** ** useVoting: the workflow hook *)

Module UseVoting.
Import VotingContract.

Record State : Type := mkState
  { step : Z;
    isLoading : bool;
    elections : list Election;
    selectedElection : option Election;
    selectedCandidate : option Candidate;
    transactionHash : option string }.

(** The state of the first render: the [useState] initial values. *)
Definition initial : State :=
  mkState 1 true [] None None None.

(** What a handler does, in program order: queued setter calls, toasts,
    console output and calls through the contract facade. *)
Inductive Effect : Type :=
| SetStep (n : Z)
| SetIsLoading (b : bool)
| SetElections (l : list Election)
| SetSelectedElection (e : Election)
| SetSelectedCandidate (c : Candidate)
| SetTransactionHash (h : string)
| Toast (t : ToastMsg)
| ConsoleError (label : string) (error : Thrown)
| Call_getElections
| Call_hasUserVoted (userId : string) (eId : Z)
| Call_castVote (userId : string) (eId cId : Z).

Definition apply (ef : Effect) (st : State) : State :=
  match ef with
  | SetStep n =>
      mkState n (isLoading st) (elections st) (selectedElection st)
              (selectedCandidate st) (transactionHash st)
  | SetIsLoading b =>
      mkState (step st) b (elections st) (selectedElection st)
              (selectedCandidate st) (transactionHash st)
  | SetElections l =>
      mkState (step st) (isLoading st) l (selectedElection st)
              (selectedCandidate st) (transactionHash st)
  | SetSelectedElection e =>
      mkState (step st) (isLoading st) (elections st) (Some e)
              (selectedCandidate st) (transactionHash st)
  | SetSelectedCandidate c =>
      mkState (step st) (isLoading st) (elections st) (selectedElection st)
              (Some c) (transactionHash st)
  | SetTransactionHash h =>
      mkState (step st) (isLoading st) (elections st) (selectedElection st)
              (selectedCandidate st) (Some h)
  | Toast _ | ConsoleError _ _
  | Call_getElections | Call_hasUserVoted _ _ | Call_castVote _ _ _ => st
  end.

(** The state of the next render, once the queued setters are applied. *)
Definition run (efs : list Effect) (st : State) : State :=
  fold_left (fun s ef => apply ef s) efs st.

(** The part of the state the workflow is made of (everything but the
    loading flag and the fetched catalogue). *)
Definition workflow (st : State)
  : Z * option Election * option Candidate * option string :=
  (step st, selectedElection st, selectedCandidate st, transactionHash st).

Definition is_call (ef : Effect) : bool :=
  match ef with
  | Call_getElections | Call_hasUserVoted _ _ | Call_castVote _ _ _ => true
  | _ => false
  end.

Definition is_castVote_call (ef : Effect) : bool :=
  match ef with
  | Call_castVote _ _ _ => true
  | _ => false
  end.

(** The contract calls of a run, in order. *)
Definition calls (efs : list Effect) : list Effect := filter is_call efs.

Definition castVote_calls (efs : list Effect) : nat :=
  length (filter is_castVote_call efs).

Definition handleFaceVerificationSuccess : list Effect :=
  [ Toast (mkToast "Face Verification Successful"
                   "Your identity has been verified." Default);
    SetStep 3 ].

Definition handleFaceVerificationError : list Effect :=
  [ Toast (mkToast "Face Verification Failed"
                   "We couldn't verify your identity. Please try again."
                   Destructive);
    SetStep 1 ].

Definition handleOTPVerificationSuccess : list Effect :=
  [ Toast (mkToast "OTP Verification Successful"
                   "You can now access the voting system." Default);
    SetStep 4 ].

Definition handleOTPVerificationError : list Effect :=
  [ Toast (mkToast "OTP Verification Failed"
                   "The OTP you entered is incorrect. Please try again."
                   Destructive) ].

Definition handleSelectElection (election : Election) : list Effect :=
  [ SetSelectedElection election; SetStep 5 ].

Definition handleSelectCandidate (candidate : Candidate) : list Effect :=
  [ SetSelectedCandidate candidate ].

(** What an [async] handler leaves behind: how its promise settled, what
    it did, and the process after its calls. *)
Record Outcome {Svc : Services} : Type := mkOutcome
  { returned : Settled unit; effects : list Effect; process : Process }.
Arguments mkOutcome {Svc} returned effects process.

Definition toast_alreadyVoted : ToastMsg :=
  mkToast "Already Voted"
          "You have already cast your vote in this election." Destructive.

Definition toast_voteCast : ToastMsg :=
  mkToast "Vote Cast Successfully"
          "Your vote has been recorded on the blockchain." Default.

Section Async.
Context {Svc : Services}.

(** The [catch] clause of [handleCastVote]. *)
Definition catch_castVote (error : Thrown) : list Effect :=
  [ ConsoleError "Error casting vote:" error;
    Toast (mkToast "Error"
             (message_or error "Failed to cast vote. Please try again.")
             Destructive) ].

(** The [finally] clause shared by both async functions. *)
Definition finally_ : list Effect := [ SetIsLoading false ].

Definition handleCastVote (st : State) (user : option User) (p : Process)
  : Outcome :=
  match selectedElection st, selectedCandidate st, user with
  | Some election, Some candidate, Some u =>
      let '(votingContract, p0) := getInstance p in
      let '(p1, hasVoted) :=
        hasUserVoted votingContract (user_id u) (elec_id election) p0 in
      let lookup :=
        [ SetIsLoading true;
          Call_hasUserVoted (user_id u) (elec_id election) ] in
      match hasVoted with
      | Resolved true =>
          mkOutcome (Resolved tt)
            (lookup ++ [ Toast toast_alreadyVoted; SetIsLoading false ]
                    ++ finally_)
            p1
      | Resolved false =>
          let '(p2, transaction) :=
            castVote votingContract (user_id u) (elec_id election)
                     (cand_id candidate) p1 in
          let cast :=
            lookup ++ [ Call_castVote (user_id u) (elec_id election)
                                      (cand_id candidate) ] in
          match transaction with
          | Resolved tx =>
              mkOutcome (Resolved tt)
                (cast ++ [ SetTransactionHash (tx_transactionHash tx);
                           Toast toast_voteCast;
                           SetStep 6 ]
                      ++ finally_)
                p2
          | Rejected error =>
              mkOutcome (Resolved tt)
                (cast ++ catch_castVote error ++ finally_) p2
          end
      | Rejected error =>
          mkOutcome (Resolved tt)
            (lookup ++ catch_castVote error ++ finally_) p1
      end
  | _, _, _ => mkOutcome (Resolved tt) [] p
  end.

(** The mount effect: [fetchElections]. *)
Definition fetchElections (p : Process) : Outcome :=
  let '(votingContract, p0) := getInstance p in
  let '(p1, electionList) := getElections votingContract p0 in
  match electionList with
  | Resolved l =>
      mkOutcome (Resolved tt)
        ([ SetIsLoading true; Call_getElections; SetElections l ]
           ++ finally_) p1
  | Rejected error =>
      mkOutcome (Resolved tt)
        ([ SetIsLoading true; Call_getElections;
           ConsoleError "Error fetching elections:" error;
           Toast (mkToast "Error"
                    "Failed to load elections. Please try again."
                    Destructive) ]
           ++ finally_) p1
  end.

(** Everything the hook returns to its caller that can act on it: the
    seven handlers and the raw [setStep]. *)
Inductive Input : Type :=
| FaceVerificationSuccess
| FaceVerificationError
| OTPVerificationSuccess
| OTPVerificationError
| SelectElection (election : Election)
| SelectCandidate (candidate : Candidate)
| CastVote
| CallSetStep (n : Z).

Definition dispatch (i : Input) (st : State) (user : option User)
           (p : Process) : Outcome :=
  match i with
  | FaceVerificationSuccess =>
      mkOutcome (Resolved tt) handleFaceVerificationSuccess p
  | FaceVerificationError =>
      mkOutcome (Resolved tt) handleFaceVerificationError p
  | OTPVerificationSuccess =>
      mkOutcome (Resolved tt) handleOTPVerificationSuccess p
  | OTPVerificationError =>
      mkOutcome (Resolved tt) handleOTPVerificationError p
  | SelectElection e => mkOutcome (Resolved tt) (handleSelectElection e) p
  | SelectCandidate c => mkOutcome (Resolved tt) (handleSelectCandidate c) p
  | CastVote => handleCastVote st user p
  | CallSetStep n => mkOutcome (Resolved tt) [ SetStep n ] p
  end.

(** One input, then the re-render. *)
Definition react (user : option User) (cfg : State * Process) (i : Input)
  : State * Process :=
  let o := dispatch i (fst cfg) user (snd cfg) in
  (run (effects o) (fst cfg), process o).

Definition exec (user : option User) (inputs : list Input)
           (cfg : State * Process) : State * Process :=
  fold_left (react user) inputs cfg.

(** The two external factor signals: the face result and the OTP
    result, each with its two values. *)
Definition is_factor_signal (i : Input) : bool :=
  match i with
  | FaceVerificationSuccess | FaceVerificationError
  | OTPVerificationSuccess | OTPVerificationError => true
  | _ => false
  end.

(** The session is [Verified] from step 4 on (election selection). *)
Definition below_verified (st : State) : bool := (step st <? 4)%Z.

(** No input can move the state. *)
Definition terminal (user : option User) (cfg : State * Process) : Prop :=
  forall i, workflow (fst (react user cfg i)) = workflow (fst cfg).


End Async.

End UseVoting.

(* ================================================================= *)
(** ** useFaceVerification: the face factor *)

Module UseFaceVerification.

Inductive Status : Type := idle | success | error.

Record State : Type := mkState
  { isCaptured : bool;
    isVerifying : bool;
    verificationStatus : Status;
    referenceImage : option string }.

Definition initial : State := mkState false false idle None.

(** [Wait ms] separates what runs now from what the timer (or the awaited
    promise) runs [ms] milliseconds later; every timer of the hook is the
    last statement of the code that starts it. *)
Inductive Effect : Type :=
| SetIsCaptured (b : bool)
| SetIsVerifying (b : bool)
| SetVerificationStatus (s : Status)
| SetReferenceImage (url : string)
| Toast (t : ToastMsg)
| ConsoleError (label : string)
| ConsoleWarn (label : string)
| ConsoleLog (label : string)
| OnVerified
| Wait (ms : Z).

Definition apply (ef : Effect) (st : State) : State :=
  match ef with
  | SetIsCaptured b =>
      mkState b (isVerifying st) (verificationStatus st) (referenceImage st)
  | SetIsVerifying b =>
      mkState (isCaptured st) b (verificationStatus st) (referenceImage st)
  | SetVerificationStatus s =>
      mkState (isCaptured st) (isVerifying st) s (referenceImage st)
  | SetReferenceImage url =>
      mkState (isCaptured st) (isVerifying st) (verificationStatus st)
              (Some url)
  | Toast _ | ConsoleError _ | ConsoleWarn _ | ConsoleLog _
  | OnVerified | Wait _ => st
  end.

Definition run (efs : list Effect) (st : State) : State :=
  fold_left (fun s ef => apply ef s) efs st.

(** The answer of the [user_biometrics] query of [fetchUserFace]. *)
Inductive Query : Type :=
| QueryThrows
| QueryError
| QueryData (face_image_url : option string).

(** [!user?.id]: there is no user, or the user's id is empty. *)
Definition no_user_id (user : option User) : bool :=
  match user with
  | None => true
  | Some u => negb (truthy (Some (user_id u)))
  end.

Definition fetchUserFace (user : option User) (q : Query) : list Effect :=
  if no_user_id user
  then []
  else
    match q with
    | QueryThrows => [ ConsoleError "Error in fetchUserFace:" ]
    | QueryError => [ ConsoleError "Error fetching user face image:" ]
    | QueryData url =>
        match url with
        | Some u =>
            if truthy url
            then [ SetReferenceImage u;
                   ConsoleLog "Loaded reference face image for comparison" ]
            else [ ConsoleWarn "No reference face image found for this user" ]
        | None =>
            [ ConsoleWarn "No reference face image found for this user" ]
        end
    end.

Record Comparison : Type := mkComparison
  { verified : bool; confidence : float }.

(** [simulateFaceComparison]; [r1] and [r2] are the two results of
    [Math.random()] it consumes, in order. *)
Definition simulateFaceComparison
           (capturedImage : string) (referenceImage : option string)
           (r1 r2 : float) : Promise Comparison :=
  mkPromise 3000
    (Resolved
       (if truthy referenceImage
        then
          let isSuccess := PrimFloat.ltb r1 0.7 in
          mkComparison isSuccess
            (if isSuccess then 0.8 + r2 * 0.15 else 0.5 + r2 * 0.2)%float
        else
          let isSuccess := PrimFloat.ltb r1 0.8 in
          mkComparison isSuccess
            (if isSuccess then 0.7 + r2 * 0.2 else 0.3 + r2 * 0.3)%float)).

Definition toast_referenceMissing : ToastMsg :=
  mkToast "Reference Image Missing"
          "No reference face image found. Please complete registration first."
          Destructive.

(** The timer body that resets the capture for another try. *)
Definition reset_to_try_again : list Effect :=
  [ Wait 2000; SetIsCaptured false; SetIsVerifying false;
    SetVerificationStatus idle ].

Definition verifyFace (st : State) (user : option User)
           (capturedImageData : string) (r1 r2 : float) : list Effect :=
  SetIsVerifying true ::
  if negb (truthy (referenceImage st)) && present user
  then
    [ Toast toast_referenceMissing; SetVerificationStatus error ]
      ++ reset_to_try_again
  else
    let promise :=
      simulateFaceComparison capturedImageData (referenceImage st) r1 r2 in
    Wait (delay promise) ::
    match settles promise with
    | Resolved result =>
        if verified result
        then
          [ SetVerificationStatus success;
            Toast (mkToast "Face Verified"
                     "Your identity has been successfully verified." Default);
            Wait 1500;
            OnVerified ]
        else
          [ SetVerificationStatus error;
            Toast (mkToast "Verification Failed"
                     "Face doesn't match our records. Please try again."
                     Destructive) ]
            ++ reset_to_try_again
    | Rejected _ =>
        [ ConsoleError "Face verification error:";
          SetVerificationStatus error;
          Toast (mkToast "Verification Error"
                   "An error occurred during face verification. Please try again."
                   Destructive) ]
          ++ reset_to_try_again
    end.

(** [captureImage]: [video], [canvas] and [context] tell whether the two
    elements and the 2d context exist; [dataUrl] is the JPEG rendering of
    the frame. *)
Definition captureImage (st : State) (user : option User)
           (video canvas context : bool) (dataUrl : string)
           (r1 r2 : float) : list Effect :=
  if negb video || negb canvas
  then [ ConsoleError "Video or canvas elements not available" ]
  else if negb context
  then [ ConsoleError "Could not get canvas context" ]
  else
    [ ConsoleLog "Capturing image from video:"; SetIsCaptured true ]
      ++ verifyFace st user dataUrl r1 r2.

Definition retryCapture : list Effect :=
  [ SetIsCaptured false; SetVerificationStatus idle ].

Definition hasReferenceImage (st : State) : bool :=
  truthy (referenceImage st).

End UseFaceVerification.

(* ================================================================= *)
(** ** OTPVerification: the one-time-code factor *)

Module OTPVerification.

Record State : Type := mkState
  { otp : string;
    isVerifying : bool;
    generatedOtp : string;
    resendDisabled : bool;
    countdown : Z;
    autoFill : bool }.

Definition initial : State := mkState "" false "" false 30 false.

Inductive Effect : Type :=
| SetOtp (s : string)
| SetIsVerifying (b : bool)
| SetGeneratedOtp (s : string)
| SetResendDisabled (b : bool)
| SetCountdown (n : Z)
| SetAutoFill (b : bool)
| Toast (t : ToastMsg)
| ConsoleLog (label : string) (s : string)
| ClearInterval
| StartInterval (ms : Z)
| OnVerified
| OnError
| Wait (ms : Z).

Definition apply (ef : Effect) (st : State) : State :=
  match ef with
  | SetOtp s =>
      mkState s (isVerifying st) (generatedOtp st) (resendDisabled st)
              (countdown st) (autoFill st)
  | SetIsVerifying b =>
      mkState (otp st) b (generatedOtp st) (resendDisabled st)
              (countdown st) (autoFill st)
  | SetGeneratedOtp s =>
      mkState (otp st) (isVerifying st) s (resendDisabled st)
              (countdown st) (autoFill st)
  | SetResendDisabled b =>
      mkState (otp st) (isVerifying st) (generatedOtp st) b
              (countdown st) (autoFill st)
  | SetCountdown n =>
      mkState (otp st) (isVerifying st) (generatedOtp st) (resendDisabled st)
              n (autoFill st)
  | SetAutoFill b =>
      mkState (otp st) (isVerifying st) (generatedOtp st) (resendDisabled st)
              (countdown st) b
  | Toast _ | ConsoleLog _ _ | ClearInterval | StartInterval _
  | OnVerified | OnError | Wait _ => st
  end.

Definition run (efs : list Effect) (st : State) : State :=
  fold_left (fun s ef => apply ef s) efs st.

(** [Math.floor(x).toString()] for a binary64 [x]: the floor of
    [(-1)^s * m * 2^e] is an arithmetic shift; an integer below 10^21 in
    absolute value prints in plain decimal. *)
Definition floor_toString (x : float) : string :=
  match Prim2SF x with
  | S754_zero _ => "0"
  | S754_infinity false => "Infinity"
  | S754_infinity true => "-Infinity"
  | S754_nan => "NaN"
  | S754_finite s m e =>
      NilZero.string_of_int
        (Z.to_int (Z.shiftl (if s then Z.neg m else Z.pos m) e))
  end.

(** [generateOTP]; [r] is the result of [Math.random()], [timer] tells
    whether [timerRef.current] holds an interval. *)
Definition generateOTP (r : float) (timer : bool) : list Effect :=
  let newOtp := floor_toString (1000 + r * 9000)%float in
  [ SetGeneratedOtp newOtp;
    ConsoleLog "Generated OTP:" newOtp;
    SetAutoFill false;
    Toast (mkToast "OTP Generated"
             (String.append "Your verification code is: " newOtp) Default);
    SetResendDisabled true;
    SetCountdown 30 ]
    ++ (if timer then [ ClearInterval ] else [])
    ++ [ StartInterval 1000 ].

(** One tick of the resend countdown: the functional update of
    [setCountdown] and what it does on reaching zero. *)
Definition tick (st : State) : list Effect :=
  if (countdown st <=? 1)%Z
  then [ ClearInterval; SetResendDisabled false; SetCountdown 0 ]
  else [ SetCountdown (countdown st - 1) ].

Definition toast_verified : ToastMsg :=
  mkToast "OTP Verified" "Your identity has been verified successfully"
          Default.

Definition toast_invalid : ToastMsg :=
  mkToast "Invalid OTP"
          "The code you entered doesn't match. Please try again."
          Destructive.

Definition handleVerify (st : State) : list Effect :=
  if (Z.of_nat (String.length (otp st)) <? 4)%Z
  then
    [ Toast (mkToast "Incomplete OTP"
               "Please enter the complete 4-digit code" Destructive) ]
  else
    [ SetIsVerifying true; Wait 1500 ]
      ++ (if String.eqb (otp st) (generatedOtp st)
          then [ Toast toast_verified; OnVerified ]
          else [ Toast toast_invalid; SetOtp ""; OnError ])
      ++ [ SetIsVerifying false ].

Definition handleResend (r : float) (timer : bool) : list Effect :=
  generateOTP r timer ++ [ SetOtp "" ].

Definition handleOTPChange (st : State) (value : string) : list Effect :=
  SetOtp value ::
  if (Z.of_nat (String.length value) =? 4)%Z && negb (autoFill st)
  then
    Wait 500 ::
    (if String.eqb value (generatedOtp st)
     then [ Toast toast_verified; OnVerified ]
     else [ Toast toast_invalid; SetOtp ""; OnError ])
  else [].

(** The effect on [generatedOtp]: fill the code in after a delay. *)
Definition autoFillEffect (st : State) : list Effect :=
  if truthy (Some (generatedOtp st)) && negb (autoFill st)
  then [ Wait 1500; SetOtp (generatedOtp st); SetAutoFill true ]
  else [].

(** The effect on [otp] and [autoFill]: verify what was filled in. *)
Definition autoVerifyEffect (st : State) : list Effect :=
  if autoFill st && String.eqb (otp st) (generatedOtp st)
  then Wait 1000 :: handleVerify st
  else [].

End OTPVerification.

(* ================================================================= *)
(** ** A ledger to run the workflow against *)

Module Ledger.
Import VotingContract.

(** The backing store: the catalogue, the append-only log and the clock. *)
Record Store : Type := mkStore
  { catalog : list Election; log : list VoteTransaction; now : Z }.

Definition decimal (z : Z) : string := NilZero.string_of_int (Z.to_int z).

(** Modelled from the spec: the transaction hash of section 4.3, derived
    from (voterId, electionId, candidateId, sequence number, timestamp).
    VotingService is not among the sources; the digest is left as the
    rendering of its five inputs. *)
Definition digest (voterId : string) (eId cId seq ts : Z) : string :=
  String.concat ":" [ voterId; decimal eId; decimal cId; decimal seq; decimal ts ].

(** Modelled from the spec: [hasVoted] of section 4.3, a pure lookup in
    the log.  ElectionService is not among the sources. *)
Definition hasVoted (voterId : string) (eId : Z) (l : list VoteTransaction)
  : bool :=
  existsb (fun tx => String.eqb (voter tx) voterId && (electionId tx =? eId)%Z) l.

Definition count_vote (cId : Z) (c : Candidate) : Candidate :=
  if (cand_id c =? cId)%Z
  then mkCandidate (cand_id c) (cand_name c) (party c) (voteCount c + 1)
  else c.

Definition count_in (eId cId : Z) (e : Election) : Election :=
  if (elec_id e =? eId)%Z
  then mkElection (elec_id e) (elec_title e) (elec_description e)
                  (startDate e) (endDate e)
                  (map (count_vote cId) (candidates e)) (isActive e)
  else e.

(** Modelled from the spec: [recordVote] of section 4.3, the atomic
    check-and-insert with its three failures.  VotingService is not among
    the sources. *)
Definition recordVote (voterId : string) (eId cId : Z) (s : Store)
  : Store * Settled VoteTransaction :=
  if hasVoted voterId eId (log s)
  then (s, Rejected (ThrownError AlreadyVoted
                       "You have already voted in this election"))
  else
    match find (fun e => (elec_id e =? eId)%Z) (catalog s) with
    | None => (s, Rejected (ThrownError NotFound "Election not found"))
    | Some e =>
        if negb ((startDate e <=? now s)%Z && (now s <=? endDate e)%Z)
        then (s, Rejected (ThrownError ElectionNotActive
                             "Election is not active"))
        else if negb (existsb (fun c => (cand_id c =? cId)%Z) (candidates e))
        then (s, Rejected (ThrownError InvalidCandidate
                             "Candidate not found"))
        else
          let seq := Z.of_nat (length (log s)) + 1 in
          let tx := mkVoteTransaction (digest voterId eId cId seq (now s))
                                      seq (now s) voterId eId cId in
          (mkStore (map (count_in eId cId) (catalog s)) (log s ++ [tx]) (now s),
           Resolved tx)
    end.

(** The services over the ledger. *)
Definition services : Services :=
  mkServices Store
    (fun _ s => (s, Resolved (catalog s)))
    (fun _ voterId eId s => (s, Resolved (hasVoted voterId eId (log s))))
    (fun _ voterId eId cId s => recordVote voterId eId cId s).

(** The same ledger behind a lookup that lags (it still answers from the
    empty log), which section 5 allows: the lookup is not the authority,
    and the atomic call is the one that meets the recorded vote. *)
Definition lagging : Services :=
  mkServices Store
    (fun _ s => (s, Resolved (catalog s)))
    (fun _ voterId eId s => (s, Resolved (hasVoted voterId eId [])))
    (fun _ voterId eId cId s => recordVote voterId eId cId s).

(** The data of the scenarios of section 8. *)
Definition c101 : Candidate := mkCandidate 101 "Asha Rao" "Unity" 0.
Definition c102 : Candidate := mkCandidate 102 "Vikram Shah" "Progress" 0.
Definition e42 : Election :=
  mkElection 42 "General Election" "National vote" 1000 9000 [c101; c102] true.
Definition v1 : User := mkUser "v1".
Definition store0 : Store := mkStore [e42] [] 5000.

(** The log once voter v1 has voted for candidate 101. *)
Definition tx1 : VoteTransaction :=
  mkVoteTransaction "v1:42:101:1:5000" 1 5000 "v1" 42 101.
Definition voted : Store := mkStore [e42] [tx1] 5000.

(** A process in which nobody has asked for the facade yet, and the one
    it becomes at the first [getInstance]. *)
Definition fresh (S : Services) (w : @World S) : @Process S :=
  mkProcess None 0%nat w.
Definition facade : Obj := mkObj 0%nat 1%nat 2%nat.
Definition running (S : Services) (w : @World S) : @Process S :=
  mkProcess (Some facade) 3%nat w.

(** The hook at the candidate choice of election 42, candidate [c]
    selected. *)
Definition choosing (c : Candidate) : UseVoting.State :=
  UseVoting.mkState 5 false [e42] (Some e42) (Some c) None.

End Ledger.

(* ================================================================= *)
(** ** useCamera: the webcam behind the face factor *)

Module UseCamera.

(** The identity of a [MediaStream]. *)
Definition Stream : Type := nat.

Record State : Type := mkState
  { isCapturing : bool; cameraError : bool; cameraStream : option Stream }.

Definition initial : State := mkState false false None.

Inductive Effect : Type :=
| SetCameraError (b : bool)
| SetCameraStream (s : option Stream)
| SetIsCapturing (b : bool)
| StopTracks (s : Stream)
| GetUserMedia
| SetSrcObject (s : option Stream)
| Play
| Toast (t : ToastMsg)
| ConsoleError (label : string)
| OnError
| Wait (ms : Z).

Definition apply (ef : Effect) (st : State) : State :=
  match ef with
  | SetCameraError b => mkState (isCapturing st) b (cameraStream st)
  | SetCameraStream s => mkState (isCapturing st) (cameraError st) s
  | SetIsCapturing b => mkState b (cameraError st) (cameraStream st)
  | StopTracks _ | GetUserMedia | SetSrcObject _ | Play | Toast _
  | ConsoleError _ | OnError | Wait _ => st
  end.

Definition run (efs : list Effect) (st : State) : State :=
  fold_left (fun s ef => apply ef s) efs st.

(** [if (onError) onError()]: the prop is optional. *)
Definition notify (onError : bool) : list Effect :=
  if onError then [ OnError ] else [].

(** The outer [catch] clause of [startWebcam]. *)
Definition catch_access (onError : bool) : list Effect :=
  [ ConsoleError "Error accessing webcam:";
    SetCameraError true;
    Toast (mkToast "Camera Access Denied"
             "Please allow camera access to continue with facial verification."
             Destructive) ]
    ++ notify onError.

(** [startWebcam]; [video] tells whether [videoRef.current] is mounted,
    [media] is how [getUserMedia] settles and [played] how [play()]
    does. *)
Definition startWebcam (st : State) (onError video : bool)
           (media : Settled Stream) (played : Settled unit) : list Effect :=
  [ SetCameraError false ]
    ++ match cameraStream st with
       | Some s => [ StopTracks s ]
       | None => []
       end
    ++ [ GetUserMedia ]
    ++ match media with
       | Rejected _ => catch_access onError
       | Resolved stream =>
           SetCameraStream (Some stream) ::
           if video
           then
             [ SetSrcObject (Some stream); Play ]
               ++ match played with
                  | Resolved _ => [ SetIsCapturing true ]
                  | Rejected _ =>
                      [ ConsoleError "Error playing video:";
                        SetCameraError true ]
                        ++ catch_access onError
                  end
           else
             [ ConsoleError "Video element reference is null";
               SetCameraError true;
               Toast (mkToast "Camera Error"
                        "Could not initialize video element. Please try again."
                        Destructive) ]
       end.

Definition stopWebcam (st : State) (video : bool) : list Effect :=
  match cameraStream st with
  | Some s => [ StopTracks s; SetCameraStream None ]
  | None => []
  end
    ++ (if video then [ SetSrcObject None ] else [])
    ++ [ SetIsCapturing false ].

(** The clean-up of the effect on [cameraStream]. *)
Definition unmount (st : State) : list Effect :=
  match cameraStream st with
  | Some s => [ StopTracks s ]
  | None => []
  end.

(** The mount effect: start the webcam a second after mounting. *)
Definition mount (st : State) (onError video : bool)
           (media : Settled Stream) (played : Settled unit) : list Effect :=
  Wait 1000 ::
  if video
  then startWebcam st onError video media played
  else
    [ ConsoleError "Video element not mounted yet"; SetCameraError true ]
      ++ notify onError.

End UseCamera.

(* ================================================================= *)
(** ** Profile: the profile page *)

Module Profile.

(** Text the page matches character by character is a sequence of UTF-16
    code units. *)
Definition JsString : Type := list N.

(** The code units of an ASCII literal. *)
Definition units (s : string) : JsString :=
  map Ascii.N_of_ascii (list_ascii_of_string s).

(** WhiteSpace and LineTerminator code units: what [trim] strips and what
    [\s] matches. *)
Definition is_space (c : N) : bool :=
  ((9 <=? c) && (c <=? 13) || (c =? 32) || (c =? 160) || (c =? 5760)
   || (8192 <=? c) && (c <=? 8202) || (c =? 8232) || (c =? 8233)
   || (c =? 8239) || (c =? 8287) || (c =? 12288) || (c =? 65279))%N.

Fixpoint trimStart (s : JsString) : JsString :=
  match s with
  | [] => []
  | c :: t => if is_space c then trimStart t else s
  end.

Definition trim (s : JsString) : JsString :=
  rev (trimStart (rev (trimStart s))).

(** [!s.trim()]: the trimmed string is empty. *)
Definition blank (s : JsString) : bool :=
  match trim s with
  | [] => true
  | _ :: _ => false
  end.

(** The regular expressions the page needs: a sequence of atoms, each
    taken once or one or more times, anchored at both ends. *)
Inductive ClassItem : Type :=
| Space
| Unit (c : N).

Inductive Atom : Type :=
| Lit (c : N)
| NotIn (items : list ClassItem).

Inductive Piece : Type :=
| One (a : Atom)
| OneOrMore (a : Atom).

Definition item_has (i : ClassItem) (c : N) : bool :=
  match i with
  | Space => is_space c
  | Unit d => (c =? d)%N
  end.

Definition atom_has (a : Atom) (c : N) : bool :=
  match a with
  | Lit d => (c =? d)%N
  | NotIn items => negb (existsb (fun i => item_has i c) items)
  end.

(** [/^...$/.test(s)], by backtracking: a repeated atom first takes as
    much as it can, then gives back. *)
Fixpoint test (p : list Piece) : JsString -> bool :=
  match p with
  | [] => fun s => match s with [] => true | _ :: _ => false end
  | One a :: p' =>
      fun s =>
        match s with
        | [] => false
        | c :: t => atom_has a c && test p' t
        end
  | OneOrMore a :: p' =>
      fix more (s : JsString) : bool :=
        match s with
        | [] => false
        | c :: t => atom_has a c && (more t || test p' t)
        end
  end.

(** [/^[^\s@]+@[^\s@]+\.[^\s@]+$/] *)
Definition emailRegex : list Piece :=
  [ OneOrMore (NotIn [Space; Unit 64]);
    One (Lit 64);
    OneOrMore (NotIn [Space; Unit 64]);
    One (Lit 46);
    OneOrMore (NotIn [Space; Unit 64]) ].

Record UserData : Type := mkUserData
  { name : JsString;
    email : JsString;
    voterId : JsString;
    registrationDate : JsString;
    hasVoted : bool;
    profileImage : JsString }.

Record State : Type := mkState
  { user : UserData;
    isEditing : bool;
    isChangingPhoto : bool;
    editedName : JsString;
    editedEmail : JsString;
    isLoading : bool }.

Definition mockUser : UserData :=
  mkUserData (units "John Doe") (units "john.doe@example.com")
             (units "VID2025042189") (units "April 1, 2025") true
             (units "/lovable-uploads/3b40358e-fcb4-4f00-a793-d500b39c474d.png").

Definition initial : State :=
  mkState mockUser false false (name mockUser) (email mockUser) false.

Inductive Effect : Type :=
| SetUser (u : UserData)
| SetIsEditing (b : bool)
| SetIsChangingPhoto (b : bool)
| SetEditedName (s : JsString)
| SetEditedEmail (s : JsString)
| SetIsLoading (b : bool)
| Toast (t : ToastMsg)
| ClickFileInput
| Redirect (href : string)
| Wait (ms : Z).

Definition apply (ef : Effect) (st : State) : State :=
  match ef with
  | SetUser u =>
      mkState u (isEditing st) (isChangingPhoto st) (editedName st)
              (editedEmail st) (isLoading st)
  | SetIsEditing b =>
      mkState (user st) b (isChangingPhoto st) (editedName st)
              (editedEmail st) (isLoading st)
  | SetIsChangingPhoto b =>
      mkState (user st) (isEditing st) b (editedName st)
              (editedEmail st) (isLoading st)
  | SetEditedName s =>
      mkState (user st) (isEditing st) (isChangingPhoto st) s
              (editedEmail st) (isLoading st)
  | SetEditedEmail s =>
      mkState (user st) (isEditing st) (isChangingPhoto st) (editedName st)
              s (isLoading st)
  | SetIsLoading b =>
      mkState (user st) (isEditing st) (isChangingPhoto st) (editedName st)
              (editedEmail st) b
  | Toast _ | ClickFileInput | Redirect _ | Wait _ => st
  end.

Definition run (efs : list Effect) (st : State) : State :=
  fold_left (fun s ef => apply ef s) efs st.

Definition handleEdit (st : State) : list Effect :=
  [ SetIsEditing true;
    SetEditedName (name (user st));
    SetEditedEmail (email (user st)) ].

(** [fileInputRef.current?.click()]; [input] tells whether the element is
    mounted. *)
Definition handleProfilePhotoClick (input : bool) : list Effect :=
  if input then [ ClickFileInput ] else [].

(** [handleFileChange]; [file] is the object URL of the chosen file, if
    one was chosen. *)
Definition handleFileChange (st : State) (file : option JsString)
  : list Effect :=
  match file with
  | None => []
  | Some imageUrl =>
      [ SetIsChangingPhoto true;
        SetIsLoading true;
        Wait 1500;
        SetUser (mkUserData (name (user st)) (email (user st))
                            (voterId (user st)) (registrationDate (user st))
                            (hasVoted (user st)) imageUrl);
        SetIsChangingPhoto false;
        SetIsLoading false;
        Toast (mkToast "Profile Photo Updated"
                 "Your profile photo has been successfully updated." Default) ]
  end.

Definition handleSave (st : State) : list Effect :=
  if blank (editedName st) || blank (editedEmail st)
  then [ Toast (mkToast "Error" "Name and email cannot be empty" Destructive) ]
  else if negb (test emailRegex (editedEmail st))
  then [ Toast (mkToast "Invalid Email" "Please enter a valid email address"
                        Destructive) ]
  else
    [ SetIsLoading true;
      Wait 1000;
      SetUser (mkUserData (editedName st) (editedEmail st)
                          (voterId (user st)) (registrationDate (user st))
                          (hasVoted (user st)) (profileImage (user st)));
      SetIsEditing false;
      SetIsLoading false;
      Toast (mkToast "Profile Updated"
               "Your profile has been successfully updated." Default) ].

Definition handleCancel : list Effect := [ SetIsEditing false ].

Definition handleSignOut : list Effect :=
  [ Toast (mkToast "Signed Out" "You have been successfully signed out."
                   Default);
    Wait 1500;
    Redirect "/" ].

(** [s.split(' ')]: the pieces between single spaces; always at least
    one piece. *)
Fixpoint split_space (s : JsString) : list JsString :=
  match s with
  | [] => [ [] ]
  | c :: t =>
      if (c =? 32)%N
      then [] :: split_space t
      else
        match split_space t with
        | [] => [ [c] ]
        | w :: ws => (c :: w) :: ws
        end
  end.

(** The avatar fallback: [user.name.split(' ').map(n => n[0]).join('')].
    [n[0]] of an empty piece is [undefined], which [join] renders as the
    empty string. *)
Definition initials (nm : JsString) : JsString :=
  flat_map (fun n => match n with [] => [] | c :: _ => [c] end)
           (split_space nm).

(** A code unit that [[^\s@]] matches: neither white space nor the at
    sign. *)
Definition email_unit (c : N) : bool :=
  negb (is_space c) && negb (c =? 64)%N.

(** The units that start a word: not a space, and first or right after a
    space.  [after_space] tells whether the unit before was a space (or
    there was none). *)
Fixpoint word_starts (after_space : bool) (s : JsString) : JsString :=
  match s with
  | [] => []
  | c :: t =>
      if (c =? 32)%N
      then word_starts true t
      else if after_space
           then c :: word_starts false t
           else word_starts false t
  end.

End Profile.

(* ================================================================= *)
(** ** Sequences of renders *)

Module FaceSession.
Import UseFaceVerification.

(** What can happen to the face hook: the effect on [user] runs with the
    answer of the query, a frame is captured, or the user retries. *)
Inductive Action : Type :=
| Fetch (user : option User) (q : Query)
| Capture (user : option User) (video canvas context : bool)
          (dataUrl : string) (r1 r2 : float)
| Retry.

Definition act (a : Action) (st : State) : list Effect :=
  match a with
  | Fetch user q => fetchUserFace user q
  | Capture user video canvas context dataUrl r1 r2 =>
      captureImage st user video canvas context dataUrl r1 r2
  | Retry => retryCapture
  end.

Definition play (acts : list Action) (st : State) : State :=
  fold_left (fun s a => run (act a s) s) acts st.

(** Whether an attempt is let through to the comparison and its first draw
    is below the threshold of the branch taken. *)
Definition passes (st : State) (user : option User) (r1 : float) : bool :=
  if truthy (referenceImage st)
  then PrimFloat.ltb r1 0.7
  else negb (present user) && PrimFloat.ltb r1 0.8.

(** An action that is not a fetch for a user with an id. *)
Definition no_signed_in_fetch (a : Action) : bool :=
  match a with
  | Fetch user _ => no_user_id user
  | _ => true
  end.

End FaceSession.

Module OtpTimer.
Import OTPVerification.

(** [n] firings of the resend interval, each followed by its re-render. *)
Fixpoint ticks (n : nat) (st : State) : State :=
  match n with
  | O => st
  | S k => ticks k (run (tick st) st)
  end.

End OtpTimer.

Module Outage.
Import VotingContract.

(** Services whose every call fails: the backing store cannot be reached. *)
Definition unreachable : Thrown :=
  ThrownError LedgerUnavailable "Failed to fetch".

Definition services : Services :=
  mkServices unit
    (fun _ w => (w, Rejected unreachable))
    (fun _ _ _ w => (w, Rejected unreachable))
    (fun _ _ _ _ w => (w, Rejected unreachable)).

End Outage.

(* ================================================================= *)
(** * Properties *)

Import VotingContract.

(** ** The singleton *)

Section Singleton.
Context {Svc : Services}.

Lemma getInstance_sets_instance (p : Process) :
  instance (snd (getInstance p)) = Some (fst (getInstance p)).
Proof.
  unfold getInstance. destruct (instance p) as [o|] eqn:E; cbn; auto.
Qed.

Lemma getInstance_again (p : Process) (o : Obj) :
  instance p = Some o -> getInstance p = (o, p).
Proof. intros E. unfold getInstance. now rewrite E. Qed.

Lemma getInstances_all_same (n : nat) :
  forall (p : Process) (o : Obj),
    instance p = Some o ->
    getInstances n p = (repeat o n, p).
Proof.
  induction n as [|k IH]; intros p o E; cbn [getInstances repeat].
  - reflexivity.
  - rewrite (getInstance_again p o E), (IH p o E). reflexivity.
Qed.

Lemma facade_keeps_instance (this : Obj) (p : Process) :
  instance (fst (getElections this p)) = instance p
  /\ (forall u e, instance (fst (hasUserVoted this u e p)) = instance p)
  /\ (forall u e c, instance (fst (castVote this u e c p)) = instance p).
Proof.
  unfold getElections, hasUserVoted, castVote.
  repeat split; intros;
    match goal with |- context [let '(_, _) := ?x in _] => destruct x end;
    reflexivity.
Qed.

End Singleton.

(** C10. [VotingContract.getInstance] is idempotent: a second call returns
    the object of the first and changes nothing; any number of successive
    calls return that one object, hence one ElectionService and one
    VotingService, and construct at most one facade (three allocations);
    the facade's own methods leave the static field alone. *)
Theorem getInstance_singleton :
  forall (Svc : Services) (p : Process) (n : nat),
    let o := fst (getInstance p) in
    let p1 := snd (getInstance p) in
    getInstance p1 = (o, p1)
    /\ fst (getInstances (S n) p) = repeat o (S n)
    /\ map electionService (fst (getInstances (S n) p))
       = repeat (electionService o) (S n)
    /\ map votingService (fst (getInstances (S n) p))
       = repeat (votingService o) (S n)
    /\ (allocated (snd (getInstances (S n) p)) <= allocated p + 3)%nat
    /\ instance (fst (getElections o p1)) = Some o
    /\ (forall u e, instance (fst (hasUserVoted o u e p1)) = Some o)
    /\ (forall u e c, instance (fst (castVote o u e c p1)) = Some o).
Proof.
  intros Svc p n o p1.
  assert (E : instance p1 = Some o) by apply getInstance_sets_instance.
  assert (G : getInstances (S n) p = (repeat o (S n), p1)).
  { cbn [getInstances]. fold o p1.
    rewrite (surjective_pairing (getInstance p)). fold o p1.
    rewrite (getInstances_all_same n p1 o E). reflexivity. }
  destruct (facade_keeps_instance o p1) as (F1 & F2 & F3).
  rewrite G. cbn [fst snd].
  repeat split.
  - apply getInstance_again, E.
  - apply map_repeat.
  - apply map_repeat.
  - subst p1. unfold getInstance. destruct (instance p); cbn; lia.
  - now rewrite F1.
  - intros. now rewrite F2.
  - intros. now rewrite F3.
Qed.

(** ** The vote-casting operation *)

Import UseVoting.

Section CastVote.
Context {Svc : Services}.

Lemma handleCastVote_resolves (st : State) (user : option User) (p : Process) :
  returned (handleCastVote st user p) = Resolved tt.
Proof.
  unfold handleCastVote.
  destruct (selectedElection st), (selectedCandidate st), user; try reflexivity.
  destruct (getInstance p) as [vc p0].
  destruct (hasUserVoted vc _ _ p0) as [p1 [[|]|err]]; try reflexivity.
  destruct (castVote vc _ _ _ p1) as [p2 [tx|err]]; reflexivity.
Qed.

(** In a state reached from the first render by factor signals alone,
    nothing is selected. *)
Lemma factor_signals_select_nothing (user : option User) (sigs : list Input) :
  forallb is_factor_signal sigs = true ->
  forall cfg,
    selectedElection (fst cfg) = None ->
    selectedElection (fst (exec user sigs cfg)) = None
    /\ snd (exec user sigs cfg) = snd cfg.
Proof.
  induction sigs as [|i sigs IH]; intros F cfg E; cbn [exec fold_left].
  - auto.
  - cbn [forallb] in F. apply andb_prop in F. destruct F as [Fi F].
    assert (selectedElection (fst (react user cfg i)) = None
            /\ snd (react user cfg i) = snd cfg) as [E1 P1].
    { destruct i; try discriminate Fi; cbn; auto. }
    destruct (IH F (react user cfg i) E1) as [E2 P2].
    unfold exec in E2, P2. rewrite E2, P2, P1. auto.
Qed.

(** X26.  Scenario E of section 8: however often the factors fail or
    pass, as long as nothing else is invoked the cast does nothing. *)
Lemma castVote_after_factor_signals (user : option User) (sigs : list Input)
      (p : Process) :
  forallb is_factor_signal sigs = true ->
  handleCastVote (fst (exec user sigs (initial, p))) user
                 (snd (exec user sigs (initial, p)))
  = mkOutcome (Resolved tt) [] p.
Proof.
  intros F.
  destruct (factor_signals_select_nothing user sigs F (initial, p) eq_refl)
    as [E P].
  unfold handleCastVote. rewrite E, P. reflexivity.
Qed.

End CastVote.




(** C2.  With an election, a candidate and a user at hand, [handleCastVote]
    makes the [hasUserVoted] lookup first; when the lookup answers that the
    voter has voted, the lookup is the only contract call (the atomic
    [castVote] is never called), the outcome is the Already Voted toast, the
    backing store is as the lookup left it, and step, selected election,
    selected candidate and transaction hash are unchanged. *)
Theorem handleCastVote_already_voted :
  forall (Svc : Services) (st : State) (e : Election) (c : Candidate)
         (u : User) (p p1 : Process),
    selectedElection st = Some e ->
    selectedCandidate st = Some c ->
    hasUserVoted (fst (getInstance p)) (user_id u) (elec_id e)
                 (snd (getInstance p)) = (p1, Resolved true) ->
    let o := handleCastVote st (Some u) p in
    effects o
    = [ SetIsLoading true;
        Call_hasUserVoted (user_id u) (elec_id e);
        Toast toast_alreadyVoted;
        SetIsLoading false;
        SetIsLoading false ]
    /\ calls (effects o) = [ Call_hasUserVoted (user_id u) (elec_id e) ]
    /\ castVote_calls (effects o) = 0%nat
    /\ returned o = Resolved tt
    /\ process o = p1
    /\ workflow (run (effects o) st) = workflow st.
Proof.
  intros Svc st e c u p p1 He Hc Hv o.
  assert (E : o = mkOutcome (Resolved tt)
                    [ SetIsLoading true;
                      Call_hasUserVoted (user_id u) (elec_id e);
                      Toast toast_alreadyVoted;
                      SetIsLoading false;
                      SetIsLoading false ] p1).
  { subst o. unfold handleCastVote. rewrite He, Hc.
    destruct (getInstance p) as [vc p0]. cbn [fst snd] in Hv.
    rewrite Hv. reflexivity. }
  rewrite E. cbn. repeat split; reflexivity.
Qed.

Lemma handleCastVote_already_voted_witness :
  castVote_calls
    (effects (handleCastVote (Svc := Ledger.services)
                (Ledger.choosing Ledger.c102) (Some Ledger.v1)
                (Ledger.fresh Ledger.services Ledger.voted))) = 0%nat
  /\ workflow
       (run (effects (handleCastVote (Svc := Ledger.services)
                        (Ledger.choosing Ledger.c102) (Some Ledger.v1)
                        (Ledger.fresh Ledger.services Ledger.voted)))
            (Ledger.choosing Ledger.c102))
     = workflow (Ledger.choosing Ledger.c102).
Proof.
  destruct (handleCastVote_already_voted Ledger.services
              (Ledger.choosing Ledger.c102) Ledger.e42 Ledger.c102
              Ledger.v1 (Ledger.fresh Ledger.services Ledger.voted)
              (Ledger.running Ledger.services Ledger.voted))
    as (_ & _ & H3 & _ & _ & H6).
  - reflexivity.
  - reflexivity.
  - vm_compute. reflexivity.
  - split; [exact H3 | exact H6].
Defined.

(** C3 as stated fails: there is no Rejected state.  The lookup lags and
    answers that the voter has not voted; the atomic call then fails with
    AlreadyVoted.  The workflow is where it was, at step 5 with both
    selections, the log is unchanged, and the state is not terminal:
    selecting the other candidate still changes it. *)
Lemma castVote_AlreadyVoted_is_not_terminal :
  let st := Ledger.choosing Ledger.c102 in
  let p := Ledger.fresh Ledger.lagging Ledger.voted in
  let o := handleCastVote st (Some Ledger.v1) p in
  castVote (fst (getInstance p)) "v1" 42 102 (snd (getInstance p))
  = (snd (getInstance p),
     Rejected (ThrownError AlreadyVoted "You have already voted in this election"))
  /\ In (Call_castVote "v1" 42 102) (effects o)
  /\ workflow (run (effects o) st) = workflow st
  /\ step (run (effects o) st) = 5
  /\ ~ terminal (Some Ledger.v1) (run (effects o) st, process o).
Proof.
  cbv zeta. repeat split; try (vm_compute; reflexivity).
  - vm_compute. auto 10.
  - intros T. specialize (T (SelectCandidate Ledger.c101)).
    vm_compute in T. discriminate T.
Qed.

(** C3, amended.  When the atomic [castVote] call fails, with AlreadyVoted
    or with anything else, [handleCastVote] has made that call exactly once
    (it does not retry), reports the failure in an Error toast that carries
    the error's message, and leaves step, selected election, selected
    candidate and transaction hash as they were. *)
Theorem handleCastVote_castVote_fails :
  forall (Svc : Services) (st : State) (e : Election) (c : Candidate)
         (u : User) (p p1 p2 : Process) (err : Thrown),
    selectedElection st = Some e ->
    selectedCandidate st = Some c ->
    hasUserVoted (fst (getInstance p)) (user_id u) (elec_id e)
                 (snd (getInstance p)) = (p1, Resolved false) ->
    castVote (fst (getInstance p)) (user_id u) (elec_id e) (cand_id c) p1
    = (p2, Rejected err) ->
    let o := handleCastVote st (Some u) p in
    calls (effects o)
    = [ Call_hasUserVoted (user_id u) (elec_id e);
        Call_castVote (user_id u) (elec_id e) (cand_id c) ]
    /\ castVote_calls (effects o) = 1%nat
    /\ In (Toast (mkToast "Error"
                    (message_or err "Failed to cast vote. Please try again.")
                    Destructive))
          (effects o)
    /\ returned o = Resolved tt
    /\ process o = p2
    /\ workflow (run (effects o) st) = workflow st.
Proof.
  intros Svc st e c u p p1 p2 err He Hc Hv Hx o.
  assert (E : o = mkOutcome (Resolved tt)
                    ([ SetIsLoading true;
                       Call_hasUserVoted (user_id u) (elec_id e);
                       Call_castVote (user_id u) (elec_id e) (cand_id c) ]
                       ++ catch_castVote err ++ finally_) p2).
  { subst o. unfold handleCastVote. rewrite He, Hc.
    destruct (getInstance p) as [vc p0]. cbn [fst snd] in Hv, Hx.
    rewrite Hv, Hx. reflexivity. }
  rewrite E. cbn. repeat split; auto 10.
Qed.

Lemma handleCastVote_castVote_fails_witness :
  castVote_calls
    (effects (handleCastVote (Svc := Ledger.lagging)
                (Ledger.choosing Ledger.c102) (Some Ledger.v1)
                (Ledger.fresh Ledger.lagging Ledger.voted))) = 1%nat
  /\ workflow
       (run (effects (handleCastVote (Svc := Ledger.lagging)
                        (Ledger.choosing Ledger.c102) (Some Ledger.v1)
                        (Ledger.fresh Ledger.lagging Ledger.voted)))
            (Ledger.choosing Ledger.c102))
     = workflow (Ledger.choosing Ledger.c102).
Proof.
  destruct (handleCastVote_castVote_fails Ledger.lagging
              (Ledger.choosing Ledger.c102) Ledger.e42 Ledger.c102
              Ledger.v1 (Ledger.fresh Ledger.lagging Ledger.voted)
              (Ledger.running Ledger.lagging Ledger.voted)
              (Ledger.running Ledger.lagging Ledger.voted)
              (ThrownError AlreadyVoted "You have already voted in this election"))
    as (_ & H2 & _ & _ & _ & H6).
  - reflexivity.
  - reflexivity.
  - vm_compute. reflexivity.
  - vm_compute. reflexivity.
  - split; [exact H2 | exact H6].
Defined.

(** C4.  When the lookup answers that the voter has not voted and the
    atomic [castVote] call resolves with a transaction, the workflow moves
    to step 6 and the stored transaction hash is the hash of that
    transaction; the selections are kept. *)
Theorem handleCastVote_success :
  forall (Svc : Services) (st : State) (e : Election) (c : Candidate)
         (u : User) (p p1 p2 : Process) (tx : VoteTransaction),
    selectedElection st = Some e ->
    selectedCandidate st = Some c ->
    hasUserVoted (fst (getInstance p)) (user_id u) (elec_id e)
                 (snd (getInstance p)) = (p1, Resolved false) ->
    castVote (fst (getInstance p)) (user_id u) (elec_id e) (cand_id c) p1
    = (p2, Resolved tx) ->
    let o := handleCastVote st (Some u) p in
    step (run (effects o) st) = 6
    /\ transactionHash (run (effects o) st) = Some (tx_transactionHash tx)
    /\ selectedElection (run (effects o) st) = Some e
    /\ selectedCandidate (run (effects o) st) = Some c
    /\ In (Toast toast_voteCast) (effects o)
    /\ castVote_calls (effects o) = 1%nat
    /\ returned o = Resolved tt
    /\ process o = p2.
Proof.
  intros Svc st e c u p p1 p2 tx He Hc Hv Hx o.
  assert (E : o = mkOutcome (Resolved tt)
                    ([ SetIsLoading true;
                       Call_hasUserVoted (user_id u) (elec_id e);
                       Call_castVote (user_id u) (elec_id e) (cand_id c) ]
                       ++ [ SetTransactionHash (tx_transactionHash tx);
                            Toast toast_voteCast;
                            SetStep 6 ]
                       ++ finally_) p2).
  { subst o. unfold handleCastVote. rewrite He, Hc.
    destruct (getInstance p) as [vc p0]. cbn [fst snd] in Hv, Hx.
    rewrite Hv, Hx. reflexivity. }
  rewrite E. cbn. repeat split; auto 10.
Qed.

Lemma handleCastVote_success_witness :
  step
    (run (effects (handleCastVote (Svc := Ledger.services)
                     (Ledger.choosing Ledger.c101) (Some Ledger.v1)
                     (Ledger.fresh Ledger.services Ledger.store0)))
         (Ledger.choosing Ledger.c101)) = 6
  /\ transactionHash
       (run (effects (handleCastVote (Svc := Ledger.services)
                        (Ledger.choosing Ledger.c101) (Some Ledger.v1)
                        (Ledger.fresh Ledger.services Ledger.store0)))
            (Ledger.choosing Ledger.c101))
     = Some "v1:42:101:1:5000".
Proof.
  destruct (handleCastVote_success Ledger.services
              (Ledger.choosing Ledger.c101) Ledger.e42 Ledger.c101 Ledger.v1
              (Ledger.fresh Ledger.services Ledger.store0)
              (Ledger.running Ledger.services Ledger.store0)
              (Ledger.running Ledger.services
                 (Ledger.mkStore
                    [ mkElection 42 "General Election" "National vote" 1000 9000
                        [ mkCandidate 101 "Asha Rao" "Unity" 1; Ledger.c102 ]
                        true ]
                    [ Ledger.tx1 ] 5000))
              Ledger.tx1)
    as (H1 & H2 & _).
  - reflexivity.
  - reflexivity.
  - vm_compute. reflexivity.
  - vm_compute. reflexivity.
  - split; [exact H1 | exact H2].
Defined.

(** ** The session below Verified *)

(** C5 as stated fails: on the first render (step 1, below Verified)
    selecting an election is not a factor signal, and it moves the session
    to step 5; so does the raw [setStep] the hook hands out. *)
Lemma selectElection_moves_unverified_session :
  let cfg := (initial, Ledger.fresh Ledger.services Ledger.store0) in
  below_verified (fst cfg) = true
  /\ is_factor_signal (SelectElection Ledger.e42) = false
  /\ step (fst (react (Some Ledger.v1) cfg (SelectElection Ledger.e42))) = 5
  /\ is_factor_signal (CallSetStep 6) = false
  /\ step (fst (react (Some Ledger.v1) cfg (CallSetStep 6))) = 6
  /\ ~ (forall i,
          is_factor_signal i = false ->
          step (fst (react (Some Ledger.v1) cfg i)) = step (fst cfg)).
Proof.
  cbv zeta. repeat split; try reflexivity.
  intros H. specialize (H (SelectElection Ledger.e42) eq_refl).
  vm_compute in H. discriminate H.
Qed.

(** C5, amended.  Whatever the step, below Verified included, each input
    moves it as follows and none looks at it first: face matched to 3, face
    mismatched to 1, OTP correct to 4, [handleSelectElection] to 5, the raw
    [setStep] to its argument, and [handleCastVote] to 6 exactly when it
    succeeds (election, candidate and user at hand, the lookup resolved to
    false and [castVote] resolved); OTP incorrect, [handleSelectCandidate]
    and a [handleCastVote] that does not succeed never move it. *)
Theorem step_after_input :
  forall (Svc : Services) (user : option User) (cfg : State * Process)
         (i : Input),
    match i with
    | FaceVerificationSuccess => step (fst (react user cfg i)) = 3
    | FaceVerificationError => step (fst (react user cfg i)) = 1
    | OTPVerificationSuccess => step (fst (react user cfg i)) = 4
    | OTPVerificationError => step (fst (react user cfg i)) = step (fst cfg)
    | SelectElection _ => step (fst (react user cfg i)) = 5
    | SelectCandidate _ => step (fst (react user cfg i)) = step (fst cfg)
    | CastVote =>
        step (fst (react user cfg i))
        = match selectedElection (fst cfg), selectedCandidate (fst cfg), user with
          | Some e, Some c, Some u =>
              let vc := fst (getInstance (snd cfg)) in
              let look := hasUserVoted vc (user_id u) (elec_id e)
                                       (snd (getInstance (snd cfg))) in
              match snd look with
              | Resolved false =>
                  match snd (castVote vc (user_id u) (elec_id e) (cand_id c)
                                      (fst look)) with
                  | Resolved _ => 6
                  | Rejected _ => step (fst cfg)
                  end
              | _ => step (fst cfg)
              end
          | _, _, _ => step (fst cfg)
          end
    | CallSetStep n => step (fst (react user cfg i)) = n
    end.
Proof.
  intros Svc user [st p] i.
  destruct i; try reflexivity.
  unfold react, dispatch. cbn [fst snd].
  unfold handleCastVote.
  destruct (selectedElection st) as [e|]; [| reflexivity].
  destruct (selectedCandidate st) as [c|]; [| reflexivity].
  destruct user as [u|]; [| reflexivity].
  cbv zeta.
  destruct (getInstance p) as [vc p0]. cbn [fst snd].
  destruct (hasUserVoted vc (user_id u) (elec_id e) p0) as [p1 [[|]|err]];
    cbn [fst snd]; try reflexivity.
  destruct (castVote vc (user_id u) (elec_id e) (cand_id c) p1)
    as [p2 [tx|err]]; reflexivity.
Qed.

(** C6.  The face-factor failure signal puts the session at the step of the
    first render and the OTP-factor failure signal leaves the state as it
    is (at the OTP step 3 when raised there); neither touches the
    selections or the transaction hash, and after either one the success
    signals advance the session as before. *)
Theorem factor_failure_returns_to_entry :
  forall st : State,
    step (run handleFaceVerificationError st) = step initial
    /\ step initial = 1
    /\ selectedElection (run handleFaceVerificationError st) = selectedElection st
    /\ selectedCandidate (run handleFaceVerificationError st) = selectedCandidate st
    /\ transactionHash (run handleFaceVerificationError st) = transactionHash st
    /\ run handleOTPVerificationError st = st
    /\ step (run handleOTPVerificationError (run handleFaceVerificationSuccess st))
       = step (run handleFaceVerificationSuccess st)
    /\ step (run handleFaceVerificationSuccess st) = 3
    /\ step (run handleFaceVerificationSuccess
                 (run handleFaceVerificationError st)) = 3
    /\ step (run handleOTPVerificationSuccess
                 (run handleOTPVerificationError st)) = 4.
Proof.
  intros [s l els e c h]. cbn. repeat split; reflexivity.
Qed.

(** ** The face factor *)

Module FaceProps.
Import UseFaceVerification.

(** [fetchUserFace] only ever stores a non-empty reference. *)
Lemma fetchUserFace_reference (user : option User) (q : Query) (st : State) :
  referenceImage (run (fetchUserFace user q) st) = referenceImage st
  \/ truthy (referenceImage (run (fetchUserFace user q) st)) = true.
Proof.
  unfold fetchUserFace.
  destruct (no_user_id user); [left; reflexivity |].
  destruct q as [| |[url|]]; try (left; reflexivity).
  destruct (truthy (Some url)) eqn:T; [right | left]; cbn; auto.
Qed.

(** C7 as stated fails: with no reference image and no signed-in user the
    guard of [verifyFace] lets the attempt through to the simulated
    comparison, which a draw of 0.5 passes; the reference-missing toast
    is not shown and [onVerified] is invoked. *)
Lemma no_reference_no_user_verifies :
  truthy (referenceImage initial) = false
  /\ verifyFace initial None "data:image/jpeg;base64,AAAA" 0.5 0.5
     = [ SetIsVerifying true;
         Wait 3000;
         SetVerificationStatus success;
         Toast (mkToast "Face Verified"
                  "Your identity has been successfully verified." Default);
         Wait 1500;
         OnVerified ]
  /\ In OnVerified
        (verifyFace initial None "data:image/jpeg;base64,AAAA" 0.5 0.5)
  /\ ~ In (Toast toast_referenceMissing)
          (verifyFace initial None "data:image/jpeg;base64,AAAA" 0.5 0.5).
Proof.
  repeat split; try (vm_compute; reflexivity).
  - vm_compute. auto 10.
  - vm_compute. intros H.
    repeat (destruct H as [H | H]; [discriminate H |]). exact H.
Qed.

(** C7, amended.  For a signed-in user with no reference image (none
    stored, or an empty one) a face-verification attempt shows the
    Reference Image Missing toast, sets the status to error, resets the
    capture two seconds later, and runs no comparison: [onVerified] is
    not invoked. *)
Theorem verifyFace_reference_missing :
  forall (st : State) (u : User) (capturedImageData : string)
         (r1 r2 : float),
    truthy (referenceImage st) = false ->
    verifyFace st (Some u) capturedImageData r1 r2
    = [ SetIsVerifying true;
        Toast toast_referenceMissing;
        SetVerificationStatus error;
        Wait 2000;
        SetIsCaptured false;
        SetIsVerifying false;
        SetVerificationStatus idle ]
    /\ In (Toast toast_referenceMissing)
          (verifyFace st (Some u) capturedImageData r1 r2)
    /\ ~ In OnVerified (verifyFace st (Some u) capturedImageData r1 r2)
    /\ ~ In (SetVerificationStatus success)
            (verifyFace st (Some u) capturedImageData r1 r2).
Proof.
  intros st u cap r1 r2 T.
  assert (E : verifyFace st (Some u) cap r1 r2
              = [ SetIsVerifying true; Toast toast_referenceMissing;
                  SetVerificationStatus error; Wait 2000;
                  SetIsCaptured false; SetIsVerifying false;
                  SetVerificationStatus idle ]).
  { unfold verifyFace. rewrite T. reflexivity. }
  rewrite E. repeat split.
  - cbn. auto.
  - cbn. intros H.
    repeat (destruct H as [H | H]; [discriminate H |]). exact H.
  - cbn. intros H.
    repeat (destruct H as [H | H]; [discriminate H |]). exact H.
Qed.

Lemma verifyFace_reference_missing_witness :
  truthy (referenceImage initial) = false
  /\ ~ In OnVerified
          (verifyFace initial (Some (mkUser "v1"))
             "data:image/jpeg;base64,AAAA" 0.5 0.5).
Proof.
  split.
  - reflexivity.
  - apply (verifyFace_reference_missing initial (mkUser "v1")
             "data:image/jpeg;base64,AAAA" 0.5 0.5).
    reflexivity.
Defined.

(** C9.  Two calls of [simulateFaceComparison] that agree on whether the
    reference is present (the test the code makes: neither [null] nor
    empty) and on the first random draw resolve with the same [verified],
    whatever the captured and reference images are; when they agree on
    the second draw as well the whole results are equal. *)
Theorem simulateFaceComparison_ignores_images :
  forall (cap1 cap2 : string) (ref1 ref2 : option string)
         (r1 r2 r2' : float),
    truthy ref1 = truthy ref2 ->
    (exists (v : bool) (conf conf' : float),
        simulateFaceComparison cap1 ref1 r1 r2
        = mkPromise 3000 (Resolved (mkComparison v conf))
        /\ simulateFaceComparison cap2 ref2 r1 r2'
           = mkPromise 3000 (Resolved (mkComparison v conf')))
    /\ simulateFaceComparison cap1 ref1 r1 r2
       = simulateFaceComparison cap2 ref2 r1 r2.
Proof.
  intros cap1 cap2 ref1 ref2 r1 r2 r2' T.
  unfold simulateFaceComparison. rewrite <- T.
  split; [| reflexivity].
  destruct (truthy ref1); eexists; eexists; eexists; split; reflexivity.
Qed.

Lemma simulateFaceComparison_ignores_images_witness :
  truthy (Some "data:image/jpeg;base64,AAAA")
  = truthy (Some "https://faces.example/v1.png")
  /\ simulateFaceComparison "data:image/jpeg;base64,BBBB"
       (Some "data:image/jpeg;base64,AAAA") 0.75 0.5
     = simulateFaceComparison "data:image/jpeg;base64,CCCC"
         (Some "https://faces.example/v1.png") 0.75 0.5.
Proof.
  split.
  - reflexivity.
  - apply (simulateFaceComparison_ignores_images
             "data:image/jpeg;base64,BBBB" "data:image/jpeg;base64,CCCC"
             (Some "data:image/jpeg;base64,AAAA")
             (Some "https://faces.example/v1.png") 0.75 0.5 0.5).
    reflexivity.
Defined.

(** The presence that matters is the one the code tests: an empty
    reference counts as absent, and at a draw of 0.75 it verifies where a
    non-empty one does not. *)
Remark empty_reference_counts_as_absent :
  settles (simulateFaceComparison "c" (Some "") 0.75 0.5)
  = settles (simulateFaceComparison "c" None 0.75 0.5)
  /\ (exists conf, settles (simulateFaceComparison "c" (Some "") 0.75 0.5)
                   = Resolved (mkComparison true conf))
  /\ (exists conf, settles (simulateFaceComparison "c" (Some "r") 0.75 0.5)
                   = Resolved (mkComparison false conf)).
Proof.
  repeat split; try reflexivity; eexists; vm_compute; reflexivity.
Qed.

End FaceProps.

(** ** The one-time-code factor *)

Module OtpProps.
Import OTPVerification.

Example generateOTP_half :
  generateOTP 0.5 false
  = [ SetGeneratedOtp "5500";
      ConsoleLog "Generated OTP:" "5500";
      SetAutoFill false;
      Toast (mkToast "OTP Generated" "Your verification code is: 5500" Default);
      SetResendDisabled true;
      SetCountdown 30;
      StartInterval 1000 ].
Proof. vm_compute. reflexivity. Qed.

Example generateOTP_extremes :
  floor_toString (1000 + 0 * 9000)%float = "1000"
  /\ floor_toString (1000 + 0x1.fffffffffffffp-1 * 9000)%float = "9999".
Proof. split; vm_compute; reflexivity. Qed.

Ltac not_in H :=
  cbn; intros H;
  repeat (destruct H as [H | H]; [discriminate H |]); exact H.

(** The two bodies of [handleVerify] on a complete code. *)
Lemma handleVerify_complete (st : State) :
  (4 <= Z.of_nat (String.length (otp st)))%Z ->
  handleVerify st
  = [ SetIsVerifying true; Wait 1500 ]
      ++ (if String.eqb (otp st) (generatedOtp st)
          then [ Toast toast_verified; OnVerified ]
          else [ Toast toast_invalid; SetOtp ""; OnError ])
      ++ [ SetIsVerifying false ].
Proof.
  intros L. unfold handleVerify.
  destruct (Z.ltb_spec (Z.of_nat (String.length (otp st))) 4);
    [lia | reflexivity].
Qed.

(** C8.  For a submitted code of full length (4 characters, or more),
    [handleVerify] invokes [onVerified] exactly when the code equals the
    generated one, and then does not invoke [onError] nor touch the entry;
    otherwise it invokes [onError], not [onVerified], and clears the
    entered code. *)
Theorem handleVerify_reports :
  forall st : State,
    (4 <= Z.of_nat (String.length (otp st)))%Z ->
    (In OnVerified (handleVerify st) <-> otp st = generatedOtp st)
    /\ (In OnError (handleVerify st) <-> otp st <> generatedOtp st)
    /\ (otp st = generatedOtp st ->
        In (Toast toast_verified) (handleVerify st)
        /\ otp (run (handleVerify st) st) = otp st)
    /\ (otp st <> generatedOtp st ->
        In (Toast toast_invalid) (handleVerify st)
        /\ otp (run (handleVerify st) st) = "")
    /\ isVerifying (run (handleVerify st) st) = false.
Proof.
  intros st L. rewrite (handleVerify_complete st L).
  destruct (String.eqb_spec (otp st) (generatedOtp st)) as [E | N].
  - assert (NoErr : ~ In OnError
                      ([ SetIsVerifying true; Wait 1500 ]
                         ++ [ Toast toast_verified; OnVerified ]
                         ++ [ SetIsVerifying false ])) by not_in H.
    split; [| split; [| split; [| split]]].
    + split; [intros _; exact E | intros _; cbn; auto 10].
    + split; [intros H; contradiction | intros C; contradiction].
    + intros _. split; [cbn; auto 10 | reflexivity].
    + intros C. contradiction.
    + reflexivity.
  - assert (NoOk : ~ In OnVerified
                     ([ SetIsVerifying true; Wait 1500 ]
                        ++ [ Toast toast_invalid; SetOtp ""; OnError ]
                        ++ [ SetIsVerifying false ])) by not_in H.
    split; [| split; [| split; [| split]]].
    + split; [intros H; contradiction | intros C; contradiction].
    + split; [intros _; exact N | intros _; cbn; auto 10].
    + intros C. contradiction.
    + intros _. split; [cbn; auto 10 | reflexivity].
    + reflexivity.
Qed.

Lemma handleVerify_reports_witness :
  (4 <= Z.of_nat (String.length (otp (mkState "1234" false "1234" true 12 true))))%Z
  /\ In OnVerified (handleVerify (mkState "1234" false "1234" true 12 true))
  /\ In OnError (handleVerify (mkState "4321" false "1234" true 12 true)).
Proof.
  split; [| split].
  - vm_compute. discriminate.
  - apply (handleVerify_reports (mkState "1234" false "1234" true 12 true)).
    + vm_compute. discriminate.
    + reflexivity.
  - apply (handleVerify_reports (mkState "4321" false "1234" true 12 true)).
    + vm_compute. discriminate.
    + discriminate.
Defined.

End OtpProps.

(* ================================================================= *)
(** * Further properties of the code *)

(** ** useVoting *)

Section VotingMore.
Context {Svc : Services}.

(** The three shapes a call of [handleCastVote] that passes its guard can
    take, by how the two contract calls settle. *)
Lemma handleCastVote_shapes (st : State) (e : Election) (c : Candidate)
      (u : User) (p : Process) :
  selectedElection st = Some e ->
  selectedCandidate st = Some c ->
  let vc := fst (getInstance p) in
  let look := hasUserVoted vc (user_id u) (elec_id e) (snd (getInstance p)) in
  let cast := castVote vc (user_id u) (elec_id e) (cand_id c) (fst look) in
  let lookup := [ SetIsLoading true; Call_hasUserVoted (user_id u) (elec_id e) ] in
  let called := lookup ++ [ Call_castVote (user_id u) (elec_id e) (cand_id c) ] in
  handleCastVote st (Some u) p
  = match snd look with
    | Resolved true =>
        mkOutcome (Resolved tt)
          (lookup ++ [ Toast toast_alreadyVoted; SetIsLoading false ] ++ finally_)
          (fst look)
    | Resolved false =>
        match snd cast with
        | Resolved tx =>
            mkOutcome (Resolved tt)
              (called ++ [ SetTransactionHash (tx_transactionHash tx);
                           Toast toast_voteCast; SetStep 6 ] ++ finally_)
              (fst cast)
        | Rejected err =>
            mkOutcome (Resolved tt) (called ++ catch_castVote err ++ finally_)
                      (fst cast)
        end
    | Rejected err =>
        mkOutcome (Resolved tt) (lookup ++ catch_castVote err ++ finally_)
                  (fst look)
    end.
Proof.
  intros He Hc. cbv zeta. unfold handleCastVote. rewrite He, Hc.
  destruct (getInstance p) as [vc p0]. cbn [fst snd].
  destruct (hasUserVoted vc (user_id u) (elec_id e) p0) as [p1 [[|]|err]];
    cbn [fst snd]; try reflexivity.
  destruct (castVote vc (user_id u) (elec_id e) (cand_id c) p1) as [p2 [tx|err]];
    reflexivity.
Qed.

End VotingMore.

(** X1.  Whatever the services answer, one invocation of [handleCastVote]
    calls nothing when its guard fails, and otherwise calls [hasUserVoted]
    first, with the user's and the selected election's ids, and then
    [castVote] at most once, with the selected candidate's id, and only
    when the lookup resolved to false. *)
Theorem handleCastVote_call_discipline :
  forall (Svc : Services) (st : State) (user : option User) (p : Process),
    let o := handleCastVote st user p in
    (castVote_calls (effects o) <= 1)%nat
    /\ match selectedElection st, selectedCandidate st, user with
       | Some e, Some c, Some u =>
           let look := hasUserVoted (fst (getInstance p)) (user_id u)
                                    (elec_id e) (snd (getInstance p)) in
           if match snd look with Resolved false => true | _ => false end
           then calls (effects o)
                = [ Call_hasUserVoted (user_id u) (elec_id e);
                    Call_castVote (user_id u) (elec_id e) (cand_id c) ]
           else calls (effects o)
                = [ Call_hasUserVoted (user_id u) (elec_id e) ]
       | _, _, _ => calls (effects o) = []
       end.
Proof.
  intros Svc st user p o. subst o.
  destruct (selectedElection st) as [e|] eqn:He;
    [| unfold handleCastVote; rewrite He; split; [cbn; lia | reflexivity]].
  destruct (selectedCandidate st) as [c|] eqn:Hc;
    [| unfold handleCastVote; rewrite He, Hc; split; [cbn; lia | reflexivity]].
  destruct user as [u|];
    [| unfold handleCastVote; rewrite He, Hc; split; [cbn; lia | reflexivity]].
  rewrite (handleCastVote_shapes st e c u p He Hc). cbv zeta.
  destruct (snd (hasUserVoted (fst (getInstance p)) (user_id u) (elec_id e)
                              (snd (getInstance p)))) as [[|]|err].
  - split; [cbn; lia | reflexivity].
  - destruct (snd (castVote _ _ _ _ _)) as [tx|err];
      (split; [cbn; lia | reflexivity]).
  - split; [cbn; lia | reflexivity].
Qed.

(** X2.  Whatever the services answer, [handleCastVote] never changes the
    selected election, the selected candidate or the fetched elections.
    Either it leaves the whole workflow as it was, or it moved to step 6
    with the hash of a transaction that [castVote] resolved with; and
    unless its guard failed, the loading flag is off when it is done. *)
Theorem handleCastVote_outcomes :
  forall (Svc : Services) (st : State) (user : option User) (p : Process),
    let o := handleCastVote st user p in
    let st' := run (effects o) st in
    selectedElection st' = selectedElection st
    /\ selectedCandidate st' = selectedCandidate st
    /\ elections st' = elections st
    /\ (workflow st' = workflow st
        \/ (step st' = 6
            /\ exists (u : User) (e : Election) (c : Candidate)
                      (tx : VoteTransaction) (p1 : Process),
                user = Some u
                /\ selectedElection st = Some e
                /\ selectedCandidate st = Some c
                /\ castVote (fst (getInstance p)) (user_id u) (elec_id e)
                            (cand_id c) p1 = (process o, Resolved tx)
                /\ transactionHash st' = Some (tx_transactionHash tx)))
    /\ (effects o = [] \/ isLoading st' = false).
Proof.
  intros Svc st user p o st'. subst st' o.
  destruct (selectedElection st) as [e|] eqn:He;
    [| unfold handleCastVote; rewrite He; cbn; rewrite ?He; auto 10].
  destruct (selectedCandidate st) as [c|] eqn:Hc;
    [| unfold handleCastVote; rewrite He, Hc; cbn; rewrite ?He, ?Hc; auto 10].
  destruct user as [u|];
    [| unfold handleCastVote; rewrite He, Hc; cbn; rewrite ?He, ?Hc; auto 10].
  rewrite (handleCastVote_shapes st e c u p He Hc). cbv zeta.
  destruct (hasUserVoted (fst (getInstance p)) (user_id u) (elec_id e)
                         (snd (getInstance p))) as [p1 [[|]|err]];
    cbn [fst snd].
  - cbn. unfold workflow. cbn. rewrite ?He, ?Hc. auto 10.
  - destruct (castVote (fst (getInstance p)) (user_id u) (elec_id e)
                       (cand_id c) p1) as [p2 [tx|err]] eqn:Hx;
      cbn [fst snd].
    + cbn. rewrite ?He, ?Hc. repeat split; auto.
      right. split; [reflexivity|].
      exists u, e, c, tx, p1. rewrite Hx. auto.
    + cbn. unfold workflow. cbn. rewrite ?He, ?Hc. auto 10.
  - cbn. unfold workflow. cbn. rewrite ?He, ?Hc. auto 10.
Qed.

(** X3.  When the [hasUserVoted] lookup itself fails, [handleCastVote]
    does not go on to [castVote]: the lookup is its only contract call, the
    failure is shown in an Error toast (the error's message, or the default
    text for a thrown non-Error), the workflow is unchanged and the loading
    flag is off. *)
Theorem handleCastVote_lookup_fails :
  forall (Svc : Services) (st : State) (e : Election) (c : Candidate)
         (u : User) (p p1 : Process) (err : Thrown),
    selectedElection st = Some e ->
    selectedCandidate st = Some c ->
    hasUserVoted (fst (getInstance p)) (user_id u) (elec_id e)
                 (snd (getInstance p)) = (p1, Rejected err) ->
    let o := handleCastVote st (Some u) p in
    calls (effects o) = [ Call_hasUserVoted (user_id u) (elec_id e) ]
    /\ In (Toast (mkToast "Error"
                    (message_or err "Failed to cast vote. Please try again.")
                    Destructive))
          (effects o)
    /\ process o = p1
    /\ workflow (run (effects o) st) = workflow st
    /\ isLoading (run (effects o) st) = false.
Proof.
  intros Svc st e c u p p1 err He Hc Hv o. subst o.
  rewrite (handleCastVote_shapes st e c u p He Hc). cbv zeta.
  rewrite Hv. cbn. repeat split; auto 10.
Qed.

Lemma handleCastVote_lookup_fails_witness :
  calls (effects (handleCastVote (Svc := Outage.services)
                    (Ledger.choosing Ledger.c101) (Some Ledger.v1)
                    (Ledger.fresh Outage.services tt)))
  = [ Call_hasUserVoted "v1" 42 ].
Proof.
  apply (handleCastVote_lookup_fails Outage.services
           (Ledger.choosing Ledger.c101) Ledger.e42 Ledger.c101 Ledger.v1
           (Ledger.fresh Outage.services tt)
           (Ledger.running Outage.services tt) Outage.unreachable).
  - reflexivity.
  - reflexivity.
  - reflexivity.
Defined.

(** X4.  [fetchElections] makes the one call [getElections] and always
    ends with the loading flag off and the workflow untouched.  When the
    call resolves the fetched list replaces [elections]; when it fails the
    list is kept and the failure is shown in an Error toast. *)
Theorem fetchElections_outcomes :
  forall (Svc : Services) (st : State) (p : Process),
    let o := fetchElections p in
    let st' := run (effects o) st in
    calls (effects o) = [ Call_getElections ]
    /\ isLoading st' = false
    /\ workflow st' = workflow st
    /\ returned o = Resolved tt
    /\ match snd (getElections (fst (getInstance p)) (snd (getInstance p))) with
       | Resolved l => elections st' = l
       | Rejected _ =>
           elections st' = elections st
           /\ In (Toast (mkToast "Error"
                           "Failed to load elections. Please try again."
                           Destructive))
                 (effects o)
       end.
Proof.
  intros Svc st p o st'. subst st' o. unfold fetchElections.
  destruct (getInstance p) as [vc p0]. cbn [fst snd].
  destruct (getElections vc p0) as [p1 [l|err]]; cbn; auto 10.
Qed.

(** X5.  [handleSelectElection] keeps the candidate selected before it, and
    nothing checks that the candidate stands in the election: a cast after
    re-selecting sends the new election's id together with the old
    candidate's id. *)
Theorem reselected_election_keeps_candidate :
  forall (Svc : Services) (st : State) (e' : Election) (c : Candidate)
         (u : User) (p p1 : Process),
    selectedCandidate st = Some c ->
    hasUserVoted (fst (getInstance p)) (user_id u) (elec_id e')
                 (snd (getInstance p)) = (p1, Resolved false) ->
    let st' := run (handleSelectElection e') st in
    selectedElection st' = Some e'
    /\ selectedCandidate st' = Some c
    /\ calls (effects (handleCastVote st' (Some u) p))
       = [ Call_hasUserVoted (user_id u) (elec_id e');
           Call_castVote (user_id u) (elec_id e') (cand_id c) ].
Proof.
  intros Svc st e' c u p p1 Hc Hv st'.
  assert (He' : selectedElection st' = Some e') by reflexivity.
  assert (Hc' : selectedCandidate st' = Some c) by exact Hc.
  repeat split; auto.
  rewrite (handleCastVote_shapes st' e' c u p He' Hc'). cbv zeta.
  rewrite Hv. cbn [fst snd].
  destruct (snd (castVote _ _ _ _ _)); reflexivity.
Qed.

Lemma reselected_election_keeps_candidate_witness :
  calls (effects (handleCastVote (Svc := Ledger.services)
                    (run (handleSelectElection
                            (mkElection 7 "Council" "Local vote" 1000 9000 [] true))
                         (Ledger.choosing Ledger.c101))
                    (Some Ledger.v1)
                    (Ledger.fresh Ledger.services Ledger.store0)))
  = [ Call_hasUserVoted "v1" 7; Call_castVote "v1" 7 101 ].
Proof.
  apply (reselected_election_keeps_candidate Ledger.services
           (Ledger.choosing Ledger.c101)
           (mkElection 7 "Council" "Local vote" 1000 9000 [] true)
           Ledger.c101 Ledger.v1
           (Ledger.fresh Ledger.services Ledger.store0)
           (Ledger.running Ledger.services Ledger.store0)).
  - reflexivity.
  - reflexivity.
Defined.

Section HookProcess.
Context {Svc : Services}.

Lemma facade_keeps_allocated (this : Obj) (p : Process) :
  (forall u e, allocated (fst (hasUserVoted this u e p)) = allocated p)
  /\ (forall u e c, allocated (fst (castVote this u e c p)) = allocated p).
Proof.
  unfold hasUserVoted, castVote.
  split; intros;
    match goal with |- context [let '(_, _) := ?x in _] => destruct x end;
    reflexivity.
Qed.

Lemma handleCastVote_process (st : State) (user : option User) (p : Process) :
  process (handleCastVote st user p) = p
  \/ (instance (process (handleCastVote st user p))
      = Some (fst (getInstance p))
      /\ allocated (process (handleCastVote st user p))
         = allocated (snd (getInstance p))).
Proof.
  destruct (selectedElection st) as [e|] eqn:He;
    [| left; unfold handleCastVote; rewrite He; reflexivity].
  destruct (selectedCandidate st) as [c|] eqn:Hc;
    [| left; unfold handleCastVote; rewrite He, Hc; reflexivity].
  destruct user as [u|];
    [| left; unfold handleCastVote; rewrite He, Hc; reflexivity].
  right. rewrite (handleCastVote_shapes st e c u p He Hc). cbv zeta.
  pose proof (getInstance_sets_instance p) as I0.
  set (vc := fst (getInstance p)) in *. set (p0 := snd (getInstance p)) in *.
  destruct (facade_keeps_instance vc p0) as (_ & K1 & _).
  destruct (facade_keeps_allocated vc p0) as (A1 & _).
  specialize (K1 (user_id u) (elec_id e)).
  specialize (A1 (user_id u) (elec_id e)).
  set (look := hasUserVoted vc (user_id u) (elec_id e) p0) in *.
  destruct (facade_keeps_instance vc (fst look)) as (_ & _ & K2).
  destruct (facade_keeps_allocated vc (fst look)) as (_ & A2).
  specialize (K2 (user_id u) (elec_id e) (cand_id c)).
  specialize (A2 (user_id u) (elec_id e) (cand_id c)).
  destruct (snd look) as [[|]|err]; cbn [process].
  - rewrite K1, A1. auto.
  - destruct (snd (castVote vc (user_id u) (elec_id e) (cand_id c) (fst look)));
      cbn [process]; rewrite K2, A2, K1, A1; auto.
  - rewrite K1, A1. auto.
Qed.

Lemma react_process (user : option User) (cfg : State * Process) (i : Input) :
  snd (react user cfg i) = snd cfg
  \/ (instance (snd (react user cfg i)) = Some (fst (getInstance (snd cfg)))
      /\ allocated (snd (react user cfg i))
         = allocated (snd (getInstance (snd cfg)))).
Proof.
  destruct cfg as [st p]. destruct i; cbn [react dispatch fst snd process]; auto.
  apply handleCastVote_process.
Qed.

Lemma getInstance_allocated (p : Process) :
  (allocated (snd (getInstance p)) <= allocated p + 3)%nat
  /\ (forall o, instance p = Some o ->
                fst (getInstance p) = o
                /\ allocated (snd (getInstance p)) = allocated p).
Proof.
  unfold getInstance. destruct (instance p) as [o|]; cbn.
  - split; [lia|]. intros o' E. injection E as <-. auto.
  - split; [lia|]. intros o' E. discriminate E.
Qed.

Lemma exec_keeps_facade (user : option User) (inputs : list Input) :
  forall (cfg : State * Process) (o : Obj),
    instance (snd cfg) = Some o ->
    instance (snd (exec user inputs cfg)) = Some o
    /\ allocated (snd (exec user inputs cfg)) = allocated (snd cfg).
Proof.
  induction inputs as [|i inputs IH]; intros cfg o E; cbn [exec fold_left].
  - auto.
  - destruct (getInstance_allocated (snd cfg)) as [_ G].
    destruct (G o E) as [G1 G2].
    assert (instance (snd (react user cfg i)) = Some o
            /\ allocated (snd (react user cfg i)) = allocated (snd cfg))
      as [E1 A1].
    { destruct (react_process user cfg i) as [R | [R1 R2]].
      - rewrite R. auto.
      - rewrite R1, R2, G1, G2. auto. }
    destruct (IH (react user cfg i) o E1) as [E2 A2].
    unfold exec in E2, A2. rewrite E2, A2, A1. auto.
Qed.

End HookProcess.

(** X6.  However many inputs the hook handles, it constructs the contract
    facade at most once: the run allocates at most the three objects of one
    construction, and once a facade exists every later input works on that
    same object and allocates nothing. *)
Theorem hook_shares_one_facade :
  forall (Svc : Services) (user : option User) (inputs : list Input)
         (cfg : State * Process),
    (allocated (snd (exec user inputs cfg)) <= allocated (snd cfg) + 3)%nat
    /\ match instance (snd cfg) with
       | Some o =>
           instance (snd (exec user inputs cfg)) = Some o
           /\ allocated (snd (exec user inputs cfg)) = allocated (snd cfg)
       | None =>
           instance (snd (exec user inputs cfg)) = None
           \/ instance (snd (exec user inputs cfg))
              = Some (fst (getInstance (snd cfg)))
       end.
Proof.
  intros Svc user inputs.
  induction inputs as [|i inputs IH]; intros cfg.
  - cbn [exec fold_left]. split; [lia|]. destruct (instance (snd cfg)); auto.
  - destruct (instance (snd cfg)) as [o|] eqn:E.
    + destruct (exec_keeps_facade user (i :: inputs) cfg o E) as [E1 A1].
      rewrite A1. split; [lia | auto].
    + change (exec user (i :: inputs) cfg)
        with (exec user inputs (react user cfg i)).
      destruct (react_process user cfg i) as [R | [R1 R2]].
      * specialize (IH (react user cfg i)). rewrite R in IH. rewrite E in IH.
        exact IH.
      * destruct (exec_keeps_facade user inputs (react user cfg i) _ R1)
          as [E1 A1].
        rewrite E1, A1, R2.
        split; [apply getInstance_allocated | right; reflexivity].
Qed.

(** X7.  The whole workflow composes, from any state of the hook and so
    from the one the mount effect leaves: face matched, OTP correct, an
    election selected, a candidate selected and the vote cast, with the
    lookup answering false and [castVote] resolving, pass through steps 3,
    4, 5, 5 and end at step 6 with both selections, the transaction's
    hash, the loading flag off, the fetched elections kept, and the
    process as [castVote] left it. *)
Theorem full_workflow_run :
  forall (Svc : Services) (st : State) (e : Election) (c : Candidate)
         (u : User) (p p1 p2 : Process) (tx : VoteTransaction),
    hasUserVoted (fst (getInstance p)) (user_id u) (elec_id e)
                 (snd (getInstance p)) = (p1, Resolved false) ->
    castVote (fst (getInstance p)) (user_id u) (elec_id e) (cand_id c) p1
    = (p2, Resolved tx) ->
    map (fun k => step (fst (exec (Some u)
                               (firstn k [ FaceVerificationSuccess;
                                           OTPVerificationSuccess;
                                           SelectElection e;
                                           SelectCandidate c;
                                           CastVote ])
                               (st, p))))
        [1; 2; 3; 4; 5]%nat
    = [3; 4; 5; 5; 6]
    /\ exec (Some u)
            [ FaceVerificationSuccess; OTPVerificationSuccess;
              SelectElection e; SelectCandidate c; CastVote ]
            (st, p)
       = (mkState 6 false (elections st) (Some e) (Some c)
                  (Some (tx_transactionHash tx)),
          p2).
Proof.
  intros Svc st e c u p p1 p2 tx Hv Hx.
  assert (E : exec (Some u)
                [ FaceVerificationSuccess; OTPVerificationSuccess;
                  SelectElection e; SelectCandidate c; CastVote ]
                (st, p)
              = (mkState 6 false (elections st) (Some e) (Some c)
                         (Some (tx_transactionHash tx)), p2)).
  { change (exec (Some u)
              [ FaceVerificationSuccess; OTPVerificationSuccess;
                SelectElection e; SelectCandidate c; CastVote ]
              (st, p))
      with (react (Some u)
                  (mkState 5 (isLoading st) (elections st) (Some e) (Some c)
                           (transactionHash st), p)
                  CastVote).
    unfold react. cbn [dispatch fst snd].
    rewrite (handleCastVote_shapes
               (mkState 5 (isLoading st) (elections st) (Some e) (Some c)
                        (transactionHash st))
               e c u p eq_refl eq_refl).
    cbv zeta. rewrite Hv. cbn [fst snd]. rewrite Hx. reflexivity. }
  split; [| exact E].
  cbn [map firstn]. rewrite E. reflexivity.
Qed.

Lemma full_workflow_run_witness :
  exec (Svc := Ledger.services) (Some Ledger.v1)
       [ FaceVerificationSuccess; OTPVerificationSuccess;
         SelectElection Ledger.e42; SelectCandidate Ledger.c101; CastVote ]
       (run (effects (fetchElections (Svc := Ledger.services)
                        (Ledger.fresh Ledger.services Ledger.store0)))
            initial,
        process (fetchElections (Svc := Ledger.services)
                   (Ledger.fresh Ledger.services Ledger.store0)))
  = (mkState 6 false [Ledger.e42] (Some Ledger.e42) (Some Ledger.c101)
             (Some "v1:42:101:1:5000"),
     fst (castVote (Svc := Ledger.services) Ledger.facade "v1" 42 101
            (Ledger.running Ledger.services Ledger.store0))).
Proof.
  apply (full_workflow_run Ledger.services
           (run (effects (fetchElections (Svc := Ledger.services)
                            (Ledger.fresh Ledger.services Ledger.store0)))
                initial)
           Ledger.e42 Ledger.c101 Ledger.v1
           (process (fetchElections (Svc := Ledger.services)
                       (Ledger.fresh Ledger.services Ledger.store0)))
           (Ledger.running Ledger.services Ledger.store0)
           (fst (castVote (Svc := Ledger.services) Ledger.facade "v1" 42 101
                   (Ledger.running Ledger.services Ledger.store0)))
           Ledger.tx1).
  - vm_compute. reflexivity.
  - vm_compute. reflexivity.
Defined.

(** ** useFaceVerification *)

Module FaceMore.
Import UseFaceVerification FaceSession.

Ltac not_in H :=
  cbn; intros H;
  repeat (destruct H as [H | H]; [discriminate H |]); exact H.

Lemma verifyFace_cases (st : State) (user : option User) (cap : string)
      (r1 r2 : float) :
  verifyFace st user cap r1 r2
  = if negb (truthy (referenceImage st)) && present user
    then [ SetIsVerifying true; Toast toast_referenceMissing;
           SetVerificationStatus error ] ++ reset_to_try_again
    else if passes st user r1
    then [ SetIsVerifying true; Wait 3000; SetVerificationStatus success;
           Toast (mkToast "Face Verified"
                    "Your identity has been successfully verified." Default);
           Wait 1500; OnVerified ]
    else [ SetIsVerifying true; Wait 3000; SetVerificationStatus error;
           Toast (mkToast "Verification Failed"
                    "Face doesn't match our records. Please try again."
                    Destructive) ] ++ reset_to_try_again.
Proof.
  unfold verifyFace, passes, simulateFaceComparison.
  destruct (truthy (referenceImage st)), user as [u|]; cbn [negb present andb];
    try reflexivity.
  - destruct (PrimFloat.ltb r1 0.7); reflexivity.
  - destruct (PrimFloat.ltb r1 0.7); reflexivity.
  - destruct (PrimFloat.ltb r1 0.8); reflexivity.
Qed.

(** X8.  [verifyFace] invokes [onVerified] exactly when the attempt is let
    through and the first draw is below the threshold of its branch: 0.7
    with a reference image, 0.8 without one and without a user; never
    without a reference for a signed-in user.  The captured image and the
    second draw play no part. *)
Theorem verifyFace_verifies_iff :
  forall (st : State) (user : option User) (cap : string) (r1 r2 : float),
    In OnVerified (verifyFace st user cap r1 r2)
    <-> (if truthy (referenceImage st)
         then PrimFloat.ltb r1 0.7
         else negb (present user) && PrimFloat.ltb r1 0.8) = true.
Proof.
  intros st user cap r1 r2. rewrite (verifyFace_cases st user cap r1 r2).
  fold (passes st user r1).
  destruct (negb (truthy (referenceImage st)) && present user) eqn:G.
  - assert (P : passes st user r1 = false).
    { unfold passes. apply andb_prop in G. destruct G as [G1 G2].
      apply negb_true_iff in G1. rewrite G1, G2. reflexivity. }
    rewrite P. split; [| discriminate].
    intros H. exfalso. revert H. not_in H.
  - destruct (passes st user r1).
    + split; [reflexivity | intros _; cbn; auto 10].
    + split; [| discriminate].
      intros H. exfalso. revert H. not_in H.
Qed.

(** X9.  An attempt either succeeds, and then the status is success and
    the hook stays in its verifying state with the capture kept, or it
    does not, and then two seconds later the hook is back where a new
    capture can start: not captured, not verifying, status idle.  The
    reference image is never changed. *)
Theorem verifyFace_outcomes :
  forall (st : State) (user : option User) (cap : string) (r1 r2 : float),
    let efs := verifyFace st user cap r1 r2 in
    (In OnVerified efs
     /\ run efs st = mkState (isCaptured st) true success (referenceImage st))
    \/ (~ In OnVerified efs
        /\ In (Wait 2000) efs
        /\ run efs st = mkState false false idle (referenceImage st)).
Proof.
  intros st user cap r1 r2 efs. subst efs.
  rewrite (verifyFace_cases st user cap r1 r2).
  destruct (negb (truthy (referenceImage st)) && present user).
  - right. split; [not_in H | split; [cbn; auto 10 | reflexivity]].
  - destruct (passes st user r1).
    + left. split; [cbn; auto 10 | reflexivity].
    + right. split; [not_in H | split; [cbn; auto 10 | reflexivity]].
Qed.

(** X10.  [captureImage] verifies nothing unless the video element, the
    canvas and its 2d context are all there: with one of them missing it
    only logs an error and changes no state; with all three it marks the
    frame captured and [onVerified] follows exactly when [verifyFace] on
    that frame gives it. *)
Theorem captureImage_needs_elements :
  forall (st : State) (user : option User) (video canvas context : bool)
         (dataUrl : string) (r1 r2 : float),
    let efs := captureImage st user video canvas context dataUrl r1 r2 in
    (In OnVerified efs
     <-> video && canvas && context = true
         /\ In OnVerified (verifyFace st user dataUrl r1 r2))
    /\ (video && canvas && context = false ->
        run efs st = st /\ exists label, efs = [ ConsoleError label ])
    /\ (video && canvas && context = true ->
        In (SetIsCaptured true) efs).
Proof.
  intros st user video canvas context dataUrl r1 r2 efs. subst efs.
  unfold captureImage.
  destruct video, canvas, context; cbn [negb orb andb];
    try (split; [split; [intros H; exfalso; revert H; not_in H
                        | intros [H _]; discriminate H]
                | split; [intros _; split; [reflexivity | eexists; reflexivity]
                         | intros H; discriminate H]]).
  split; [| split].
  - split.
    + intros [H | [H | H]]; try discriminate H. auto.
    + intros [_ H]. right. right. exact H.
  - intros H. discriminate H.
  - intros _. cbn. auto.
Qed.

Lemma captureImage_needs_elements_witness :
  run (captureImage initial (Some (mkUser "v1")) true true false
         "data:image/jpeg;base64,AAAA" 0.5 0.5) initial = initial.
Proof.
  apply (captureImage_needs_elements initial (Some (mkUser "v1"))
           true true false "data:image/jpeg;base64,AAAA" 0.5 0.5).
  reflexivity.
Defined.

Lemma run_keeps_reference (efs : list Effect) :
  (forall url, ~ In (SetReferenceImage url) efs) ->
  forall st, referenceImage (run efs st) = referenceImage st.
Proof.
  induction efs as [|ef efs IH]; intros N st; [reflexivity|].
  cbn [run fold_left]. fold (run efs (apply ef st)).
  rewrite IH.
  - destruct ef; try reflexivity. exfalso. apply (N url). left. reflexivity.
  - intros url H. apply (N url). right. exact H.
Qed.

Lemma verifyFace_no_reference_set (st : State) (user : option User)
      (cap : string) (r1 r2 : float) (url : string) :
  ~ In (SetReferenceImage url) (verifyFace st user cap r1 r2).
Proof.
  rewrite (verifyFace_cases st user cap r1 r2).
  destruct (negb (truthy (referenceImage st)) && present user);
    [| destruct (passes st user r1)]; not_in H.
Qed.

Lemma captureImage_keeps_reference (st : State) (user : option User)
      (video canvas context : bool) (dataUrl : string) (r1 r2 : float) :
  referenceImage (run (captureImage st user video canvas context dataUrl r1 r2) st)
  = referenceImage st.
Proof.
  apply run_keeps_reference. intros url. unfold captureImage.
  destruct video, canvas, context; cbn [negb orb andb]; try not_in H.
  intros [H | [H | H]]; try discriminate H.
  exact (verifyFace_no_reference_set st user dataUrl r1 r2 url H).
Qed.

Lemma act_keeps_or_sets (a : Action) (st : State) :
  referenceImage (run (act a st) st) = referenceImage st
  \/ truthy (referenceImage (run (act a st) st)) = true.
Proof.
  destruct a as [user q | user video canvas context dataUrl r1 r2 |].
  - apply FaceProps.fetchUserFace_reference.
  - left. apply captureImage_keeps_reference.
  - left. reflexivity.
Qed.

Lemma act_without_fetch (a : Action) (st : State) :
  no_signed_in_fetch a = true ->
  referenceImage (run (act a st) st) = referenceImage st.
Proof.
  destruct a as [user q | user video canvas context dataUrl r1 r2 |];
    intros F.
  - cbn in F. cbn [act]. unfold fetchUserFace. rewrite F. reflexivity.
  - apply captureImage_keeps_reference.
  - reflexivity.
Qed.

(** X11.  Through any sequence of fetches, captures and retries from the
    first render the stored reference image is either absent or non-empty,
    so [hasReferenceImage] tells exactly whether one is stored; and as long
    as every fetch runs without a user or for a user with an empty id none
    is ever stored. *)
Theorem reference_never_empty :
  forall acts : list Action,
    let st := play acts initial in
    (referenceImage st = None \/ truthy (referenceImage st) = true)
    /\ hasReferenceImage st = present (referenceImage st)
    /\ (forallb no_signed_in_fetch acts = true -> referenceImage st = None).
Proof.
  intros acts.
  assert (Inv : forall st0,
             (referenceImage st0 = None \/ truthy (referenceImage st0) = true) ->
             referenceImage (play acts st0) = None
             \/ truthy (referenceImage (play acts st0)) = true).
  { induction acts as [|a acts IH]; intros st0 H0; [exact H0|].
    cbn [play fold_left]. apply IH.
    destruct (act_keeps_or_sets a st0) as [E | T]; [rewrite E; exact H0 | auto]. }
  assert (NoUser : forall st0,
             forallb no_signed_in_fetch acts = true ->
             referenceImage (play acts st0) = referenceImage st0).
  { clear Inv. induction acts as [|a acts IH]; intros st0 F; [reflexivity|].
    cbn [forallb] in F. apply andb_prop in F. destruct F as [Fa F].
    cbn [play fold_left]. fold (play acts (run (act a st0) st0)).
    rewrite (IH (run (act a st0) st0) F).
    apply act_without_fetch, Fa. }
  cbv zeta. split; [apply Inv; left; reflexivity | split].
  - unfold hasReferenceImage.
    destruct (Inv initial (or_introl eq_refl)) as [E | T].
    + rewrite E. reflexivity.
    + rewrite T. destruct (referenceImage (play acts initial));
        [reflexivity | discriminate T].
  - intros F. rewrite (NoUser initial F). reflexivity.
Qed.

Lemma reference_never_empty_witness :
  referenceImage
    (play [ Fetch None (QueryData (Some "https://faces.example/v1.png"));
            Fetch (Some (mkUser "")) (QueryData (Some "https://faces.example/v1.png"));
            Capture None true true true "data:image/jpeg;base64,AAAA" 0.5 0.5;
            Retry ] initial) = None.
Proof.
  apply (reference_never_empty
           [ Fetch None (QueryData (Some "https://faces.example/v1.png"));
             Fetch (Some (mkUser "")) (QueryData (Some "https://faces.example/v1.png"));
             Capture None true true true "data:image/jpeg;base64,AAAA" 0.5 0.5;
             Retry ]).
  reflexivity.
Defined.

End FaceMore.

(** ** OTPVerification *)

Module OtpMore.
Import OTPVerification OtpTimer.

Ltac not_in H :=
  cbn; intros H;
  repeat (destruct H as [H | H]; [discriminate H |]); exact H.

(** X12.  [handleVerify] invokes at most one of its two callbacks, and
    none on an incomplete code: [onVerified] exactly for a code of at
    least 4 characters equal to the generated one, [onError] exactly for a
    code of at least 4 characters that differs; an incomplete code only
    gets the Incomplete OTP toast and changes no state. *)
Theorem handleVerify_callbacks :
  forall st : State,
    (In OnVerified (handleVerify st)
     <-> (4 <= Z.of_nat (String.length (otp st)))%Z
         /\ otp st = generatedOtp st)
    /\ (In OnError (handleVerify st)
        <-> (4 <= Z.of_nat (String.length (otp st)))%Z
            /\ otp st <> generatedOtp st)
    /\ ((Z.of_nat (String.length (otp st)) < 4)%Z ->
        run (handleVerify st) st = st
        /\ handleVerify st
           = [ Toast (mkToast "Incomplete OTP"
                        "Please enter the complete 4-digit code" Destructive) ]).
Proof.
  intros st. unfold handleVerify.
  destruct (Z.ltb_spec (Z.of_nat (String.length (otp st))) 4) as [L | L].
  - split; [| split].
    + split; [intros H; exfalso; revert H; not_in H | intros [C _]; lia].
    + split; [intros H; exfalso; revert H; not_in H | intros [C _]; lia].
    + intros _. split; reflexivity.
  - destruct (String.eqb_spec (otp st) (generatedOtp st)) as [E | N].
    + split; [| split].
      * split; [intros _; auto | intros _; cbn; auto 10].
      * split; [intros H; exfalso; revert H; not_in H
               | intros [_ C]; contradiction].
      * intros C. lia.
    + split; [| split].
      * split; [intros H; exfalso; revert H; not_in H
               | intros [_ C]; contradiction].
      * split; [intros _; auto | intros _; cbn; auto 10].
      * intros C. lia.
Qed.

Lemma handleVerify_callbacks_witness :
  run (handleVerify (mkState "12" false "1234" true 12 false))
      (mkState "12" false "1234" true 12 false)
  = mkState "12" false "1234" true 12 false.
Proof.
  apply (handleVerify_callbacks (mkState "12" false "1234" true 12 false)).
  vm_compute. reflexivity.
Defined.

(** X13.  Typing into the field verifies by itself only when the value has
    exactly 4 characters and auto-fill has not run: then [onVerified] is
    invoked if the value is the generated code, and otherwise [onError] is
    invoked and the field is cleared.  In every other case the value is
    just stored and no callback is invoked. *)
Theorem handleOTPChange_auto_verifies :
  forall (st : State) (value : string),
    let efs := handleOTPChange st value in
    let auto := (Z.of_nat (String.length value) =? 4)%Z && negb (autoFill st) in
    (In OnVerified efs <-> auto = true /\ value = generatedOtp st)
    /\ (In OnError efs <-> auto = true /\ value <> generatedOtp st)
    /\ otp (run efs st)
       = (if auto && negb (String.eqb value (generatedOtp st))
          then "" else value)
    /\ (auto = false -> efs = [ SetOtp value ]).
Proof.
  intros st value efs auto. subst efs auto. unfold handleOTPChange.
  destruct ((Z.of_nat (String.length value) =? 4)%Z && negb (autoFill st)).
  - destruct (String.eqb_spec value (generatedOtp st)) as [E | N].
    + split; [| split; [| split]].
      * split; [intros _; auto | intros _; cbn; auto 10].
      * split; [intros H; exfalso; revert H; not_in H
               | intros [_ C]; contradiction].
      * reflexivity.
      * intros C. discriminate C.
    + split; [| split; [| split]].
      * split; [intros H; exfalso; revert H; not_in H
               | intros [_ C]; contradiction].
      * split; [intros _; auto | intros _; cbn; auto 10].
      * reflexivity.
      * intros C. discriminate C.
  - split; [| split; [| split]].
    + split; [intros H; exfalso; revert H; not_in H
             | intros [C _]; discriminate C].
    + split; [intros H; exfalso; revert H; not_in H
             | intros [C _]; discriminate C].
    + reflexivity.
    + reflexivity.
Qed.

Lemma handleOTPChange_auto_verifies_witness :
  handleOTPChange (mkState "" false "1234" true 30 true) "1234"
  = [ SetOtp "1234" ].
Proof.
  apply (handleOTPChange_auto_verifies
           (mkState "" false "1234" true 30 true) "1234").
  reflexivity.
Defined.

Lemma ticks_at_zero (n : nat) (st : State) :
  countdown st = 0 -> resendDisabled st = false ->
  countdown (ticks n st) = 0 /\ resendDisabled (ticks n st) = false
  /\ generatedOtp (ticks n st) = generatedOtp st
  /\ otp (ticks n st) = otp st.
Proof.
  revert st. induction n as [|k IH]; intros st C R; cbn [ticks]; [auto|].
  unfold tick. rewrite C. cbn.
  destruct (IH (mkState (otp st) (isVerifying st) (generatedOtp st) false 0
                        (autoFill st)) eq_refl eq_refl) as (A & B & G & O).
  auto.
Qed.

Lemma ticks_count_down (n : nat) :
  forall st : State,
    (1 <= countdown st)%Z -> resendDisabled st = true ->
    countdown (ticks n st) = Z.max 0 (countdown st - Z.of_nat n)
    /\ resendDisabled (ticks n st) = (Z.of_nat n <? countdown st)%Z
    /\ generatedOtp (ticks n st) = generatedOtp st
    /\ otp (ticks n st) = otp st.
Proof.
  induction n as [|k IH]; intros st C R.
  - cbn [ticks]. rewrite R.
    replace (countdown st - Z.of_nat 0)%Z with (countdown st) by (cbn; lia).
    repeat split; [lia |].
    symmetry. apply Z.ltb_lt. cbn. lia.
  - cbn [ticks]. unfold tick.
    destruct (Z.leb_spec (countdown st) 1) as [L | L].
    + assert (E : countdown st = 1) by lia.
      destruct (ticks_at_zero k
                  (run [ ClearInterval; SetResendDisabled false; SetCountdown 0 ] st)
                  eq_refl eq_refl) as (A & B & G & O).
      rewrite A, B, G, O, E. repeat split.
      * lia.
      * symmetry. apply Z.ltb_ge. lia.
    + destruct (IH (run [ SetCountdown (countdown st - 1) ] st)) as (A & B & G & O).
      * cbn. lia.
      * cbn. exact R.
      * rewrite A, B, G, O. cbn [run fold_left apply countdown generatedOtp otp].
        repeat split.
        -- lia.
        -- destruct (Z.ltb_spec (Z.of_nat k) (countdown st - 1));
             symmetry; [apply Z.ltb_lt | apply Z.ltb_ge]; lia.
Qed.

(** X14.  Generating a code starts a cool-down of exactly 30 ticks: after
    [n] firings of the interval the countdown shows [30 - n] (0 from the
    30th on) and resending is disabled exactly while [n < 30]; the ticks
    change neither the generated nor the entered code.  A resend generates
    in the same way and clears the entered code. *)
Theorem resend_cooldown :
  forall (st : State) (r : float) (timer : bool) (n : nat),
    let st1 := run (generateOTP r timer) st in
    countdown (ticks n st1) = Z.max 0 (30 - Z.of_nat n)
    /\ resendDisabled (ticks n st1) = (Z.of_nat n <? 30)%Z
    /\ generatedOtp (ticks n st1) = generatedOtp st1
    /\ otp (ticks n st1) = otp st
    /\ autoFill st1 = false
    /\ run (handleResend r timer) st
       = mkState "" (isVerifying st) (generatedOtp st1) true 30 false.
Proof.
  intros st r timer n st1.
  assert (E : st1 = mkState (otp st) (isVerifying st)
                      (floor_toString (1000 + r * 9000)%float) true 30 false).
  { subst st1. unfold generateOTP. destruct timer; reflexivity. }
  destruct (ticks_count_down n st1) as (A & B & G & O).
  - rewrite E. cbn. lia.
  - rewrite E. reflexivity.
  - rewrite A, B, G, O. rewrite E. cbn [countdown otp autoFill generatedOtp].
    repeat split.
    unfold handleResend, generateOTP. destruct timer; reflexivity.
Qed.

(** X15.  The demo's auto-fill path never reports a wrong code: once a
    non-empty code is generated and auto-fill has not run, the fill stores
    the generated code as the entry and marks auto-fill done, and the
    verification it triggers invokes [onVerified] (for a code of at least
    4 characters) and never [onError].  After that [handleOTPChange] only
    stores what is typed; the effect on the entry still verifies, without
    ever invoking [onError], a typed value that equals the generated code,
    and does nothing for any other value. *)
Theorem autoFill_then_verify :
  forall st : State,
    generatedOtp st <> "" ->
    autoFill st = false ->
    let st1 := run (autoFillEffect st) st in
    otp st1 = generatedOtp st
    /\ autoFill st1 = true
    /\ autoFillEffect st1 = []
    /\ ~ In OnError (autoVerifyEffect st1)
    /\ (In OnVerified (autoVerifyEffect st1)
        <-> (4 <= Z.of_nat (String.length (generatedOtp st)))%Z)
    /\ (forall value,
           let st2 := run (handleOTPChange st1 value) st1 in
           handleOTPChange st1 value = [ SetOtp value ]
           /\ ~ In OnError (autoVerifyEffect st2)
           /\ (In OnVerified (autoVerifyEffect st2)
               <-> value = generatedOtp st
                   /\ (4 <= Z.of_nat (String.length value))%Z)
           /\ (value <> generatedOtp st -> autoVerifyEffect st2 = [])).
Proof.
  intros st NE AF st1.
  assert (T : truthy (Some (generatedOtp st)) = true).
  { cbn. destruct (String.eqb_spec (generatedOtp st) ""); [contradiction | auto]. }
  assert (E : st1 = mkState (generatedOtp st) (isVerifying st) (generatedOtp st)
                      (resendDisabled st) (countdown st) true).
  { subst st1. unfold autoFillEffect. rewrite T, AF. reflexivity. }
  assert (V : forall value,
             let st2 := mkState value (isVerifying st) (generatedOtp st)
                                (resendDisabled st) (countdown st) true in
             ~ In OnError (autoVerifyEffect st2)
             /\ (In OnVerified (autoVerifyEffect st2)
                 <-> value = generatedOtp st
                     /\ (4 <= Z.of_nat (String.length value))%Z)
             /\ (value <> generatedOtp st -> autoVerifyEffect st2 = [])).
  { intros value st2. subst st2.
    unfold autoVerifyEffect, handleVerify.
    cbn [autoFill otp generatedOtp andb].
    destruct (String.eqb_spec value (generatedOtp st)) as [Ev | Nv].
    - destruct (Z.ltb_spec (Z.of_nat (String.length value)) 4) as [L | L].
      + split; [not_in H | split].
        * split; [intros H; exfalso; revert H; not_in H | intros [_ C]; lia].
        * intros C. contradiction.
      + split; [not_in H | split].
        * split; [intros _; auto | intros _; cbn; auto 10].
        * intros C. contradiction.
    - split; [intros H; destruct H | split].
      + split; [intros H; destruct H | intros [C _]; contradiction].
      + intros _. reflexivity. }
  rewrite E. cbn [otp autoFill].
  split; [reflexivity | split; [reflexivity | split; [| split; [| split]]]].
  - unfold autoFillEffect. cbn [autoFill negb]. rewrite andb_false_r. reflexivity.
  - apply (V (generatedOtp st)).
  - destruct (V (generatedOtp st)) as (_ & I & _). rewrite I.
    split; [intros [_ L]; exact L | intros L; auto].
  - intros value.
    assert (C : handleOTPChange
                  (mkState (generatedOtp st) (isVerifying st) (generatedOtp st)
                           (resendDisabled st) (countdown st) true) value
                = [ SetOtp value ]).
    { unfold handleOTPChange. cbn [autoFill negb].
      rewrite andb_false_r. reflexivity. }
    cbv zeta. rewrite C. split; [reflexivity |].
    apply (V value).
Qed.

Lemma autoFill_then_verify_witness :
  In OnVerified
     (autoVerifyEffect
        (run (autoFillEffect (mkState "" false "5500" true 30 false))
             (mkState "" false "5500" true 30 false))).
Proof.
  apply (autoFill_then_verify (mkState "" false "5500" true 30 false)).
  - discriminate.
  - reflexivity.
  - vm_compute. discriminate.
Defined.

End OtpMore.

(** ** useCamera *)

Module CameraMore.
Import UseCamera.

Ltac not_in H :=
  cbn; intros H;
  repeat (destruct H as [H | H]; [discriminate H |]); exact H.

(** The prefix of [startWebcam] up to the request. *)
Lemma startWebcam_prefix (st : State) (onError video : bool)
      (media : Settled Stream) (played : Settled unit) :
  exists rest,
    startWebcam st onError video media played
    = [ SetCameraError false ]
        ++ match cameraStream st with
           | Some s => [ StopTracks s ]
           | None => []
           end
        ++ GetUserMedia :: rest
    /\ (forall s, ~ In (StopTracks s) rest)
    /\ (In OnError rest
        <-> onError = true
            /\ match media, played with
               | Rejected _, _ => True
               | Resolved _, Rejected _ => video = true
               | Resolved _, Resolved _ => False
               end)
    /\ forall st0,
        run rest st0
        = match media with
          | Rejected _ => mkState (isCapturing st0) true (cameraStream st0)
          | Resolved stream =>
              if video
              then match played with
                   | Resolved _ => mkState true (cameraError st0) (Some stream)
                   | Rejected _ => mkState (isCapturing st0) true (Some stream)
                   end
              else mkState (isCapturing st0) true (Some stream)
          end.
Proof.
  unfold startWebcam.
  destruct media as [stream | err]; [destruct video; [destruct played as [u | err] |] |];
    destruct onError; eexists;
    (split; [reflexivity |]);
    (split; [intros s; not_in H |]);
    (split; [| intros st0; reflexivity]);
    cbn;
    try (split; [intros H; repeat (destruct H as [H | H]; try discriminate H);
                 try contradiction; auto
                | intros [C1 C2]; try discriminate C1; try discriminate C2;
                  try contradiction; try (destruct played; easy); auto 10]).
Qed.

Lemma startWebcam_state (st : State) (onError video : bool)
      (media : Settled Stream) (played : Settled unit) :
  run (startWebcam st onError video media played) st
  = mkState (if match media, played with
                | Resolved _, Resolved _ => video
                | _, _ => false
                end
             then true else isCapturing st)
            (negb match media, played with
                  | Resolved _, Resolved _ => video
                  | _, _ => false
                  end)
            (match media with
             | Resolved stream => Some stream
             | Rejected _ => cameraStream st
             end).
Proof.
  destruct (startWebcam_prefix st onError video media played)
    as (rest & E & _ & _ & R).
  rewrite E. unfold run. rewrite !fold_left_app. cbn [fold_left].
  fold (run rest). rewrite R.
  destruct (cameraStream st) eqn:C, media, video, played; cbn; rewrite ?C;
    reflexivity.
Qed.

(** X16.  [startWebcam] ends capturing with no camera error exactly when
    the stream was granted, the video element is mounted and playback
    started; in every other case the camera error is set and the capturing
    flag keeps its old value.  [onError] is invoked, if given, when the
    request or the playback fails, and not when the video element is
    missing.  A granted stream is stored even when start-up then fails. *)
Theorem startWebcam_outcomes :
  forall (st : State) (onError video : bool) (media : Settled Stream)
         (played : Settled unit),
    let efs := startWebcam st onError video media played in
    let started :=
      match media, played with
      | Resolved _, Resolved _ => video
      | _, _ => false
      end in
    run efs st
    = mkState (if started then true else isCapturing st)
              (negb started)
              (match media with
               | Resolved stream => Some stream
               | Rejected _ => cameraStream st
               end)
    /\ (In OnError efs
        <-> onError = true
            /\ match media, played with
               | Rejected _, _ => True
               | Resolved _, Rejected _ => video = true
               | Resolved _, Resolved _ => False
               end).
Proof.
  intros st onError video media played efs started. subst efs started.
  split; [apply startWebcam_state |].
  destruct (startWebcam_prefix st onError video media played)
    as (rest & E & _ & O & _).
  rewrite E.
  - rewrite <- O. split.
    + intros H. apply in_app_or in H. destruct H as [[H | []] | H];
        [discriminate H |].
      apply in_app_or in H. destruct H as [H | [H | H]].
      * destruct (cameraStream st); [destruct H as [H | []]; discriminate H
                                    | destruct H].
      * discriminate H.
      * exact H.
    + intros H. apply in_or_app. right. apply in_or_app. right. right. exact H.
Qed.

(** X17.  A stream the camera hook holds is stopped by whatever comes
    next: [startWebcam] stops exactly the stream held before it asks for a
    new one, and a stream it was granted, also by a start-up that then
    failed, is stopped by the following [stopWebcam], restart or
    unmount. *)
Theorem held_stream_is_stopped :
  forall (st : State) (onError video : bool) (media : Settled Stream)
         (played : Settled unit),
    (forall s,
        In (StopTracks s) (startWebcam st onError video media played)
        <-> cameraStream st = Some s)
    /\ match media with
       | Resolved stream =>
           let st1 := run (startWebcam st onError video media played) st in
           (forall v, In (StopTracks stream) (stopWebcam st1 v))
           /\ (forall e v m q, In (StopTracks stream) (startWebcam st1 e v m q))
           /\ In (StopTracks stream) (unmount st1)
       | Rejected _ => True
       end.
Proof.
  intros st onError video media played.
  assert (Stops : forall st0 e v m q s,
             In (StopTracks s) (startWebcam st0 e v m q)
             <-> cameraStream st0 = Some s).
  { intros st0 e v m q s.
    destruct (startWebcam_prefix st0 e v m q) as (rest & E & N & _ & _).
    rewrite E. split.
    - intros H. apply in_app_or in H. destruct H as [[H | []] | H];
        [discriminate H |].
      apply in_app_or in H. destruct H as [H | [H | H]].
      + destruct (cameraStream st0); [| destruct H].
        destruct H as [H | []]. injection H as ->. reflexivity.
      + discriminate H.
      + destruct (N s H).
    - intros C. rewrite C. cbn. auto. }
  split; [intros s; apply Stops |].
  destruct media as [stream | err]; [| exact I].
  cbv zeta.
  rewrite (startWebcam_state st onError video (Resolved stream) played).
  split; [| split].
  - intros v. unfold stopWebcam. cbn. auto.
  - intros e v m q. apply Stops. reflexivity.
  - cbn. auto.
Qed.

(** X18.  [stopWebcam] leaves the hook not capturing and holding no
    stream, whatever the camera error was; it stops the tracks of exactly
    the stream held, and a second [stopWebcam] stops nothing and changes
    nothing. *)
Theorem stopWebcam_releases :
  forall (st : State) (video video' : bool),
    let st1 := run (stopWebcam st video) st in
    st1 = mkState false (cameraError st) None
    /\ (forall s, In (StopTracks s) (stopWebcam st video)
                  <-> cameraStream st = Some s)
    /\ (forall s, ~ In (StopTracks s) (stopWebcam st1 video'))
    /\ run (stopWebcam st1 video') st1 = st1.
Proof.
  intros st video video' st1.
  assert (E : st1 = mkState false (cameraError st) None).
  { subst st1. unfold stopWebcam.
    destruct (cameraStream st) eqn:C, video; cbn; rewrite ?C; reflexivity. }
  rewrite E. split; [reflexivity | split; [| split]].
  - intros s. unfold stopWebcam.
    destruct (cameraStream st) as [s0|], video; cbn; split.
    all: try (intros C; discriminate C).
    all: try (intros C; injection C as ->; left; reflexivity).
    all: intros H; repeat (destruct H as [H | H]; try discriminate H);
      try contradiction.
    all: injection H as ->; reflexivity.
  - intros s. unfold stopWebcam. destruct video'; not_in H.
  - unfold stopWebcam. destruct video'; reflexivity.
Qed.

(** X19.  The mount effect waits a second and then asks for the camera
    only if the video element is mounted; if it is not, no request is
    made, the camera error is set and [onError], if given, is invoked:
    unlike in [startWebcam], where a missing element is reported by a
    toast only. *)
Theorem mount_without_video :
  forall (st : State) (onError video : bool) (media : Settled Stream)
         (played : Settled unit),
    let efs := mount st onError video media played in
    (In GetUserMedia efs <-> video = true)
    /\ (video = false ->
        run efs st = mkState (isCapturing st) true (cameraStream st)
        /\ (In OnError efs <-> onError = true))
    /\ (video = true ->
        efs = Wait 1000 :: startWebcam st onError true media played)
    /\ (forall stream,
           media = Resolved stream ->
           ~ In OnError (startWebcam st onError false media played)).
Proof.
  intros st onError video media played efs. subst efs. unfold mount.
  split; [| split; [| split]].
  - destruct video.
    + split; [reflexivity | intros _].
      destruct (startWebcam_prefix st onError true media played)
        as (rest & E & _). rewrite E.
      right. apply in_or_app. right. apply in_or_app. right. left. reflexivity.
    + split; [| discriminate]. intros H. exfalso. revert H.
      destruct onError; not_in H.
  - intros ->. split.
    + destruct onError; reflexivity.
    + destruct onError.
      * split; [reflexivity | intros _; cbn; auto 10].
      * split; [intros H; exfalso; revert H; not_in H | discriminate].
  - intros ->. reflexivity.
  - intros stream ->. unfold startWebcam.
    destruct (cameraStream st); not_in H.
Qed.

Lemma mount_without_video_witness :
  run (mount initial true false (Resolved 7%nat) (Resolved tt)) initial
  = mkState false true None.
Proof.
  apply (mount_without_video initial true false (Resolved 7%nat) (Resolved tt)).
  reflexivity.
Defined.

End CameraMore.

(** ** Profile *)

Module ProfileMore.
Import Profile.

Ltac not_in H :=
  cbn; intros H;
  repeat (destruct H as [H | H]; [discriminate H |]); exact H.

Lemma trimStart_nil (s : JsString) :
  trimStart s = [] <-> forallb is_space s = true.
Proof.
  induction s as [|c t IH]; cbn [trimStart forallb].
  - split; reflexivity.
  - destruct (is_space c); cbn [andb]; [exact IH |].
    split; intros H; discriminate H.
Qed.

Lemma trimStart_head (s : JsString) (c : N) (t : JsString) :
  trimStart s = c :: t -> is_space c = false.
Proof.
  induction s as [|x s IH]; cbn [trimStart]; [discriminate|].
  destruct (is_space x) eqn:X; [exact IH |].
  intros H. injection H as -> _. exact X.
Qed.

Lemma forallb_rev_space (s : JsString) :
  forallb is_space (rev s) = forallb is_space s.
Proof.
  induction s as [|c t IH]; [reflexivity|].
  cbn [rev forallb]. rewrite forallb_app, IH. cbn [forallb].
  rewrite andb_true_r. apply andb_comm.
Qed.

Lemma blank_spec (s : JsString) :
  blank s = true <-> forallb is_space s = true.
Proof.
  unfold blank, trim. split.
  - intros H.
    assert (R : trimStart (rev (trimStart s)) = []).
    { destruct (trimStart (rev (trimStart s))) as [|x l]; [reflexivity|].
      exfalso. cbn [rev] in H. destruct (rev l); discriminate H. }
    apply trimStart_nil in R. rewrite forallb_rev_space in R.
    apply trimStart_nil.
    destruct (trimStart s) as [|c t] eqn:T; [reflexivity|].
    apply trimStart_head in T. cbn [forallb] in R. rewrite T in R.
    discriminate R.
  - intros H. apply trimStart_nil in H. rewrite H. reflexivity.
Qed.

Lemma not_blank (s : JsString) (c : N) :
  In c s -> is_space c = false -> blank s = false.
Proof.
  intros I C. destruct (blank s) eqn:Bs; [| reflexivity].
  apply blank_spec in Bs. rewrite forallb_forall in Bs.
  rewrite (Bs c I) in C. discriminate C.
Qed.

(** X20.  The emptiness test of [handleSave], [!s.trim()], holds exactly
    for the strings made of white space only (the empty string included);
    trimming never removes anything else: a string that has one unit that
    is not white space is not blank. *)
Theorem blank_iff_all_space :
  forall s : JsString,
    (blank s = true <-> forallb is_space s = true)
    /\ (forall c, In c s -> is_space c = false -> blank s = false).
Proof.
  intros s. split.
  - apply blank_spec.
  - intros c. apply not_blank.
Qed.

Lemma blank_iff_all_space_witness :
  blank (units " Jo ") = false.
Proof.
  apply (proj2 (blank_iff_all_space (units " Jo ")) 74%N).
  - vm_compute. auto.
  - reflexivity.
Defined.

Lemma test_nil (s : JsString) : test [] s = true <-> s = [].
Proof. destruct s; cbn; split; intros H; try reflexivity; discriminate H. Qed.

Lemma test_one (a : Atom) (p : list Piece) (s : JsString) :
  test (One a :: p) s = true
  <-> exists c t, s = c :: t /\ atom_has a c = true /\ test p t = true.
Proof.
  destruct s as [|c t]; cbn [test].
  - split; [discriminate | intros (c & t & E & _); discriminate E].
  - split.
    + intros H. apply andb_prop in H. destruct H as [H1 H2].
      exists c, t. auto.
    + intros (c' & t' & E & H1 & H2). injection E as -> ->.
      rewrite H1, H2. reflexivity.
Qed.

Lemma test_more_step (a : Atom) (p : list Piece) (c : N) (t : JsString) :
  test (OneOrMore a :: p) (c :: t)
  = atom_has a c && (test (OneOrMore a :: p) t || test p t).
Proof. reflexivity. Qed.

Lemma test_more (a : Atom) (p : list Piece) (s : JsString) :
  test (OneOrMore a :: p) s = true
  <-> exists u v, u <> [] /\ s = u ++ v
                  /\ forallb (atom_has a) u = true /\ test p v = true.
Proof.
  induction s as [|c t IH].
  - split; [discriminate |].
    intros (u & v & N & E & _). destruct u; [contradiction | discriminate E].
  - rewrite test_more_step. split.
    + intros H. apply andb_prop in H. destruct H as [H1 H2].
      apply orb_prop in H2. destruct H2 as [H2 | H2].
      * apply IH in H2. destruct H2 as (u & v & N & E & F & T).
        exists (c :: u), v. repeat split; [discriminate | | |].
        -- cbn. rewrite E. reflexivity.
        -- cbn. rewrite H1, F. reflexivity.
        -- exact T.
      * exists [c], t. repeat split; [discriminate | |].
        -- cbn. rewrite H1. reflexivity.
        -- exact H2.
    + intros (u & v & N & E & F & T).
      destruct u as [|c' u]; [contradiction|].
      cbn in E. injection E as <- ->.
      cbn [forallb] in F. apply andb_prop in F. destruct F as [F1 F2].
      rewrite F1. cbn [andb]. apply orb_true_iff.
      destruct u as [|c'' u].
      * right. exact T.
      * left. apply IH. exists (c'' :: u), v.
        repeat split; [discriminate | exact F2 | exact T].
Qed.

Lemma class_is_email_unit (c : N) :
  atom_has (NotIn [Space; Unit 64]) c = email_unit c.
Proof.
  unfold email_unit. cbn. rewrite orb_false_r, negb_orb. reflexivity.
Qed.

Lemma forallb_class (u : JsString) :
  forallb (atom_has (NotIn [Space; Unit 64])) u = forallb email_unit u.
Proof.
  induction u as [|c u IH]; [reflexivity|].
  cbn [forallb]. rewrite IH, class_is_email_unit. reflexivity.
Qed.

Lemma emailRegex_parts (s : JsString) :
  test emailRegex s = true ->
  exists a b c,
    s = a ++ 64%N :: b ++ 46%N :: c
    /\ a <> [] /\ b <> [] /\ c <> []
    /\ forallb email_unit a = true
    /\ forallb email_unit b = true
    /\ forallb email_unit c = true.
Proof.
  unfold emailRegex. intros H.
  apply test_more in H. destruct H as (a & r1 & Na & E1 & Fa & H).
  apply test_one in H. destruct H as (x & r2 & E2 & Hx & H).
  apply test_more in H. destruct H as (b & r3 & Nb & E3 & Fb & H).
  apply test_one in H. destruct H as (y & r4 & E4 & Hy & H).
  apply test_more in H. destruct H as (c & r5 & Nc & E5 & Fc & H).
  apply test_nil in H. subst r5. rewrite app_nil_r in E5. subst r4.
  cbn in Hx, Hy. apply N.eqb_eq in Hx. apply N.eqb_eq in Hy. subst x y.
  rewrite forallb_class in Fa, Fb, Fc.
  exists a, b, c. subst s r1 r2 r3. repeat split; auto.
Qed.

(** X21.  The e-mail pattern of [handleSave] accepts exactly the strings
    of the form local [@] domain [.] rest in which the three parts are
    non-empty and contain neither white space nor an at sign. *)
Theorem emailRegex_accepts :
  forall s : JsString,
    test emailRegex s = true
    <-> exists a b c,
        s = a ++ 64%N :: b ++ 46%N :: c
        /\ a <> [] /\ b <> [] /\ c <> []
        /\ forallb email_unit a = true
        /\ forallb email_unit b = true
        /\ forallb email_unit c = true.
Proof.
  intros s. split; [apply emailRegex_parts |].
  intros (a & b & c & E & Na & Nb & Nc & Fa & Fb & Fc).
  rewrite <- forallb_class in Fa, Fb, Fc.
  unfold emailRegex.
  apply test_more. exists a, (64%N :: b ++ 46%N :: c).
  repeat split; auto.
  apply test_one. exists 64%N, (b ++ 46%N :: c). repeat split.
  apply test_more. exists b, (46%N :: c). repeat split; auto.
  apply test_one. exists 46%N, c. repeat split.
  apply test_more. exists c, []. repeat split; auto.
  rewrite app_nil_r. reflexivity.
Qed.

Lemma email_unit_count (u : JsString) :
  forallb email_unit u = true ->
  count_occ N.eq_dec u 64%N = 0%nat
  /\ forallb (fun c => negb (is_space c)) u = true.
Proof.
  induction u as [|c u IH]; intros F; [auto|].
  cbn [forallb] in F. apply andb_prop in F. destruct F as [Fc F].
  destruct (IH F) as [C S]. unfold email_unit in Fc.
  apply andb_prop in Fc. destruct Fc as [F1 F2].
  apply negb_true_iff, N.eqb_neq in F2.
  split.
  - rewrite count_occ_cons_neq; auto.
  - cbn [forallb]. rewrite F1, S. reflexivity.
Qed.

Lemma valid_email_facts (s : JsString) :
  test emailRegex s = true ->
  count_occ N.eq_dec s 64%N = 1%nat
  /\ forallb (fun c => negb (is_space c)) s = true
  /\ (5 <= length s)%nat
  /\ blank s = false.
Proof.
  intros H. apply emailRegex_parts in H.
  destruct H as (a & b & c & E & Na & Nb & Nc & Fa & Fb & Fc).
  destruct (email_unit_count a Fa) as [Ca Sa].
  destruct (email_unit_count b Fb) as [Cb Sb].
  destruct (email_unit_count c Fc) as [Cc Sc].
  assert (S : forallb (fun c => negb (is_space c)) s = true).
  { subst s. rewrite forallb_app. cbn [forallb]. rewrite forallb_app.
    cbn [forallb]. rewrite Sa, Sb, Sc. reflexivity. }
  split; [| split; [exact S | split]].
  - subst s. rewrite count_occ_app, count_occ_cons_eq by reflexivity.
    rewrite count_occ_app, count_occ_cons_neq by discriminate. lia.
  - subst s. rewrite length_app. cbn [length]. rewrite length_app.
    cbn [length].
    destruct a; [contradiction|]. destruct b; [contradiction|].
    destruct c; [contradiction|]. cbn [length]. lia.
  - destruct a as [|x a]; [contradiction|].
    apply (not_blank s x).
    + subst s. left. reflexivity.
    + cbn [forallb] in Sa. apply andb_prop in Sa. destruct Sa as [Sx _].
      apply negb_true_iff in Sx. exact Sx.
Qed.

(** X22.  An e-mail address the pattern accepts has exactly one at sign,
    no white space and at least five units, and so is never blank: the
    emptiness test on the e-mail in [handleSave] only decides which of the
    two messages a blank e-mail gets. *)
Theorem valid_email_shape :
  forall s : JsString,
    test emailRegex s = true ->
    count_occ N.eq_dec s 64%N = 1%nat
    /\ forallb (fun c => negb (is_space c)) s = true
    /\ (5 <= length s)%nat
    /\ blank s = false.
Proof.
  intros s H. destruct (valid_email_facts s H) as (C & S & L & B).
  repeat split; assumption.
Qed.

Lemma valid_email_shape_witness :
  count_occ N.eq_dec (units "john.doe@example.com") 64%N = 1%nat.
Proof.
  apply (valid_email_shape (units "john.doe@example.com")).
  vm_compute. reflexivity.
Defined.

Lemma handleSave_cases (st : State) :
  handleSave st
  = if negb (blank (editedName st)) && test emailRegex (editedEmail st)
    then
      [ SetIsLoading true;
        Wait 1000;
        SetUser (mkUserData (editedName st) (editedEmail st)
                            (voterId (user st)) (registrationDate (user st))
                            (hasVoted (user st)) (profileImage (user st)));
        SetIsEditing false;
        SetIsLoading false;
        Toast (mkToast "Profile Updated"
                 "Your profile has been successfully updated." Default) ]
    else if blank (editedName st) || blank (editedEmail st)
    then [ Toast (mkToast "Error" "Name and email cannot be empty" Destructive) ]
    else [ Toast (mkToast "Invalid Email" "Please enter a valid email address"
                          Destructive) ].
Proof.
  unfold handleSave.
  destruct (blank (editedName st)) eqn:Bn; cbn [negb andb orb]; [reflexivity|].
  destruct (test emailRegex (editedEmail st)) eqn:T; cbn [negb].
  - destruct (valid_email_facts _ T) as (_ & _ & _ & Be). rewrite Be.
    reflexivity.
  - destruct (blank (editedEmail st)); reflexivity.
Qed.

(** X23.  [handleSave] saves exactly when the edited name is not blank and
    the edited e-mail matches the pattern.  It then stores the edited name
    and e-mail as typed (the name is not trimmed), keeps the voter id, the
    registration date, the voting status and the photo, and leaves edit
    mode; otherwise it changes no state and shows one destructive toast. *)
Theorem handleSave_saves_iff :
  forall st : State,
    let ok := negb (blank (editedName st))
              && test emailRegex (editedEmail st) in
    run (handleSave st) st
    = (if ok
       then mkState (mkUserData (editedName st) (editedEmail st)
                                (voterId (user st)) (registrationDate (user st))
                                (hasVoted (user st)) (profileImage (user st)))
                    false (isChangingPhoto st) (editedName st)
                    (editedEmail st) false
       else st)
    /\ ((exists u, In (SetUser u) (handleSave st)) <-> ok = true)
    /\ (ok = false ->
        exists t, handleSave st = [ Toast t ] /\ variant t = Destructive).
Proof.
  intros st ok. subst ok. rewrite (handleSave_cases st).
  destruct (negb (blank (editedName st)) && test emailRegex (editedEmail st)).
  - split; [reflexivity | split].
    + split; [reflexivity | intros _; eexists; cbn; auto 10].
    + intros C. discriminate C.
  - destruct (blank (editedName st) || blank (editedEmail st)).
    + split; [reflexivity | split].
      * split; [intros [u H]; exfalso; revert H; not_in H | discriminate].
      * intros _. eexists. split; reflexivity.
    + split; [reflexivity | split].
      * split; [intros [u H]; exfalso; revert H; not_in H | discriminate].
      * intros _. eexists. split; reflexivity.
Qed.

Lemma handleSave_saves_iff_witness :
  exists t,
    handleSave (mkState mockUser true false (units "  ") (units "a@b.c") false)
    = [ Toast t ] /\ variant t = Destructive.
Proof.
  apply (handleSave_saves_iff
           (mkState mockUser true false (units "  ") (units "a@b.c") false)).
  vm_compute. reflexivity.
Defined.

(** X24.  Opening the editor and saving without typing leaves the user
    record as it was, whatever it holds (a record the checks reject is not
    saved, one they accept is saved as itself); so does cancelling, which
    only leaves edit mode and keeps what was typed. *)
Theorem edit_then_save_or_cancel :
  forall st : State,
    let st1 := run (handleEdit st) st in
    editedName st1 = name (user st)
    /\ editedEmail st1 = email (user st)
    /\ isEditing st1 = true
    /\ user (run (handleSave st1) st1) = user st
    /\ (forall typedName typedEmail,
           let st2 := run [ SetEditedName typedName; SetEditedEmail typedEmail ]
                          st1 in
           run handleCancel st2
           = mkState (user st) false (isChangingPhoto st) typedName typedEmail
                     (isLoading st)).
Proof.
  intros st st1. subst st1.
  split; [reflexivity | split; [reflexivity | split; [reflexivity | split]]].
  - rewrite (handleSave_cases (run (handleEdit st) st)).
    cbn [run handleEdit fold_left apply editedName editedEmail user].
    destruct (negb (blank (name (user st)))
              && test emailRegex (email (user st))).
    + cbn. destruct (user st). reflexivity.
    + destruct (blank (name (user st)) || blank (email (user st))); reflexivity.
  - intros typedName typedEmail. reflexivity.
Qed.

Lemma split_space_initials (t : JsString) :
  match split_space t with
  | [] => False
  | w :: ws =>
      flat_map (fun n => match n with [] => [] | c :: _ => [c] end) ws
      = word_starts false t
      /\ flat_map (fun n => match n with [] => [] | c :: _ => [c] end) (w :: ws)
         = word_starts true t
  end.
Proof.
  induction t as [|c t IH]; cbn [split_space word_starts].
  - split; reflexivity.
  - destruct (c =? 32)%N.
    + destruct (split_space t) as [|w ws]; [destruct IH|].
      destruct IH as [_ IH2]. split; exact IH2.
    + destruct (split_space t) as [|w ws]; [destruct IH|].
      destruct IH as [IH1 _]. split; [exact IH1 |].
      cbn [flat_map app]. rewrite IH1. reflexivity.
Qed.

Lemma word_starts_no_space (b : bool) (s : JsString) :
  forallb (fun c => negb (c =? 32)%N) (word_starts b s) = true.
Proof.
  revert b. induction s as [|c t IH]; intros b; [reflexivity|].
  cbn [word_starts]. destruct (c =? 32)%N eqn:C; [apply IH|].
  destruct b; [| apply IH].
  cbn [forallb]. rewrite C, IH. reflexivity.
Qed.

(** X25.  The avatar fallback shows the units that start a word of the
    name: those that are not a space and stand first or right after a
    space.  It contains no space, and it is empty exactly for a name made
    of spaces only (the empty name included). *)
Theorem initials_are_word_starts :
  forall nm : JsString,
    initials nm = word_starts true nm
    /\ forallb (fun c => negb (c =? 32)%N) (initials nm) = true
    /\ (initials nm = [] <-> forallb (fun c => (c =? 32)%N) nm = true).
Proof.
  intros nm.
  assert (E : initials nm = word_starts true nm).
  { unfold initials. pose proof (split_space_initials nm) as H.
    destruct (split_space nm) as [|w ws]; [destruct H | exact (proj2 H)]. }
  rewrite E. split; [reflexivity | split; [apply word_starts_no_space |]].
  clear E. induction nm as [|c t IH]; cbn [word_starts forallb].
  - split; reflexivity.
  - destruct (c =? 32)%N; cbn [andb]; [exact IH |].
    split; intros H; discriminate H.
Qed.

Example initials_of_mock_user :
  initials (name mockUser) = units "JD"
  /\ initials (units " ada  lovelace ") = units "al".
Proof. split; vm_compute; reflexivity. Qed.

End ProfileMore.

(** ** Witnesses at concrete inputs *)

Lemma emailRegex_accepts_witness :
  Profile.test Profile.emailRegex (Profile.units "a@b.c") = true.
Proof.
  apply (ProfileMore.emailRegex_accepts (Profile.units "a@b.c")).
  exists (Profile.units "a"), (Profile.units "b"), (Profile.units "c").
  repeat split; try discriminate; reflexivity.
Defined.

Lemma castVote_after_factor_signals_witness :
  handleCastVote (Svc := Ledger.services)
    (fst (exec (Some Ledger.v1)
               [ FaceVerificationError; FaceVerificationError;
                 FaceVerificationError; FaceVerificationSuccess;
                 OTPVerificationError; OTPVerificationSuccess ]
               (initial, Ledger.fresh Ledger.services Ledger.store0)))
    (Some Ledger.v1)
    (snd (exec (Some Ledger.v1)
               [ FaceVerificationError; FaceVerificationError;
                 FaceVerificationError; FaceVerificationSuccess;
                 OTPVerificationError; OTPVerificationSuccess ]
               (initial, Ledger.fresh Ledger.services Ledger.store0)))
  = mkOutcome (Resolved tt) [] (Ledger.fresh Ledger.services Ledger.store0).
Proof.
  apply (castVote_after_factor_signals (Svc := Ledger.services)
           (Some Ledger.v1)
           [ FaceVerificationError; FaceVerificationError;
             FaceVerificationError; FaceVerificationSuccess;
             OTPVerificationError; OTPVerificationSuccess ]
           (Ledger.fresh Ledger.services Ledger.store0)).
  reflexivity.
Defined.
